(** * RAG customer-support chatbot: classify / route / respond-or-escalate

    A shallow embedding of [src/langgraph_workflow.py], [src/rag_chain.py]
    and [src/api/routes.py].

    Python [str] values are Rocq [string]s holding the UTF-8 text.  Python
    [dict]s with string keys are [gmap string _].  The three external
    collaborators (the classification model, the retriever and the
    generation model) are arbitrary functions of an explicit world state,
    so that they may fail, may answer anything, and may answer differently
    from one call to the next.  Every call is also appended to a call log.
    The [print] statements of the source are not modelled. *)

From Stdlib Require Import String Ascii.
From stdpp Require Import base option list strings gmap.

Local Open Scope string_scope.
Local Set Warnings "-register-all".

(** ** Python values *)

(** The values that the workflow stores in its free-form [metadata] dict,
    and that chunk metadata holds ([{"source": ..., "chunk_id": i}]). *)
Inductive pyval : Type :=
| PStr (s : string)
| PInt (n : Z)
| PBool (b : bool)
| PList (l : list pyval)
| PDict (d : gmap string pyval).

(** [langchain]'s [Document]: [page_content] and [metadata]. *)
Record Document : Type := mkDocument {
  page_content : string;
  doc_metadata : gmap string pyval
}.

(** The [content] attribute of a chat-model response is a [str], or, for
    multi-part messages, a list (which has no [strip] method). *)
Inductive content : Type :=
| ContentStr (s : string)
| ContentParts (parts : list pyval).

(** ** String helpers *)

Definition nl : string := String "010"%char EmptyString.
Definition dquote : string := String "034"%char EmptyString.

(** Python's [sep.join(xs)]. *)
Fixpoint str_join (sep : string) (xs : list string) : string :=
  match xs with
  | [] => EmptyString
  | [x] => x
  | x :: rest => x ++ sep ++ str_join sep rest
  end.

(** [str.strip()] and [str.lower()] are Python built-ins driven by the
    Unicode tables; the workflow is defined over any implementation of
    them, and [ascii_pystr] below is the one used to run examples. *)
Class PyStr : Type := {
  str_strip : string -> string;
  str_lower : string -> string
}.

Definition is_ascii_space (c : ascii) : bool :=
  let n := nat_of_ascii c in
  (((9 <=? n) && (n <=? 13)) || ((28 <=? n) && (n <=? 32)))%nat.

Fixpoint lstrip (s : string) : string :=
  match s with
  | String c rest => if is_ascii_space c then lstrip rest else s
  | EmptyString => EmptyString
  end.

Fixpoint rstrip (s : string) : string :=
  match s with
  | String c rest =>
      match rstrip rest with
      | EmptyString => if is_ascii_space c then EmptyString else String c EmptyString
      | r => String c r
      end
  | EmptyString => EmptyString
  end.

Definition ascii_lower_char (c : ascii) : ascii :=
  let n := nat_of_ascii c in
  if ((65 <=? n) && (n <=? 90))%nat then ascii_of_nat (n + 32)%nat else c.

Fixpoint ascii_lower (s : string) : string :=
  match s with
  | String c rest => String (ascii_lower_char c) (ascii_lower rest)
  | EmptyString => EmptyString
  end.

(** The behaviour of [strip] and [lower] on ASCII text. *)
#[global] Instance ascii_pystr : PyStr :=
  {| str_strip := fun s => rstrip (lstrip s); str_lower := ascii_lower |}.

(** Substring test, used to state that a message mentions a given text. *)
Fixpoint is_prefix (p s : string) : bool :=
  match p, s with
  | EmptyString, _ => true
  | String a p', String b s' => bool_decide (a = b) && is_prefix p' s'
  | String _ _, EmptyString => false
  end.

Fixpoint is_substring (p s : string) : bool :=
  is_prefix p s ||
  match s with
  | String _ s' => is_substring p s'
  | EmptyString => false
  end.

(** ** Exceptions, effects and the call log *)

(** What a Python call does: return a value, or raise an [Exception]
    whose [str(e)] is [msg]. *)
Inductive outcome (A : Type) : Type :=
| Returned (a : A)
| Raised (msg : string).
Arguments Returned {A} a.
Arguments Raised {A} msg.

(** One entry of the call log per call to an external collaborator. *)
Inductive event : Type :=
| ClassifierCall (prompt : string)
| RetrieverCall (query : string)
| LLMCall (prompt : string).

#[global] Instance event_eq_dec : EqDecision event.
Proof. solve_decision. Defined.

Section Effects.

(** The state of everything outside the process: model servers, the
    vector store, clocks, random seeds. *)
Variable W : Type.

Record Sys : Type := mkSys {
  world : W;
  calls : list event
}.

(** A computation reads and updates the system state and either returns
    or raises; effects done before a raise persist. *)
Definition Py (A : Type) : Type := Sys -> outcome A * Sys.

Definition py_ret {A} (a : A) : Py A := fun s => (Returned a, s).

Definition py_bind {A B} (m : Py A) (k : A -> Py B) : Py B :=
  fun s =>
    match m s with
    | (Returned a, s') => k a s'
    | (Raised e, s') => (Raised e, s')
    end.

Definition py_raise {A} (e : string) : Py A := fun s => (Raised e, s).

(** [try: body / except Exception as e: handler(str(e))]. *)
Definition try_except {A} (body : Py A) (handler : string -> Py A) : Py A :=
  fun s =>
    match body s with
    | (Returned a, s') => (Returned a, s')
    | (Raised e, s') => handler e s'
    end.

(** Perform one external call: run it on the world, log the event. *)
Definition external {A} (ev : event) (f : W -> outcome A * W) : Py A :=
  fun s =>
    let '(r, w') := f (world s) in
    (r, {| world := w'; calls := calls s ++ [ev] |}).

End Effects.

Arguments mkSys {W} world calls.
Arguments world {W} s.
Arguments calls {W} s.
Arguments py_ret {W A} a.
Arguments py_bind {W A B} m k.
Arguments py_raise {W A} e.
Arguments try_except {W A} body handler.
Arguments external {W A} ev f.

Notation "'do' x <- m ; k" := (py_bind m (fun x => k))
  (at level 10, x name, m at level 100, k at level 200).

(** ** The external collaborators *)

(** [classifier_llm.invoke], [retriever.get_relevant_documents] (also run
    by [self.retriever] inside the chain) and [self.llm | StrOutputParser()].
    Each maps its argument and the current world to an outcome and the
    next world. *)
Record Collaborators (W : Type) : Type := mkCollaborators {
  classifier_llm_invoke : string -> W -> outcome content * W;
  get_relevant_documents : string -> W -> outcome (list Document) * W;
  llm_invoke : string -> W -> outcome string * W
}.
Arguments mkCollaborators {W} _ _ _.
Arguments classifier_llm_invoke {W} _ _ _.
Arguments get_relevant_documents {W} _ _ _.
Arguments llm_invoke {W} _ _ _.

(** ** [rag_chain.py] *)

Module RAGChain.
Section RAGChain.

Context {W : Type} (C : Collaborators W).

(** [ChatPromptTemplate.from_template(...)] rendered with
    [{context, question}]. *)
Definition prompt_template (context question : string) : string :=
  str_join nl
    [ "You are a helpful customer support assistant for TechGear, an electronics company.";
      "Use the following context to answer the customer's question accurately and concisely.";
      "If the answer is not in the context, politely say you don't have that information.";
      EmptyString;
      "Context:";
      context;
      EmptyString;
      "Question: " ++ question;
      EmptyString;
      "Answer:" ].

(** ["\n\n".join([doc.page_content for doc in docs])] *)
Definition format_docs (docs : list Document) : string :=
  str_join (nl ++ nl) (map page_content docs).

Definition retrieve (query : string) : Py W (list Document) :=
  external (RetrieverCall query) (get_relevant_documents C query).

Definition generate (prompt : string) : Py W string :=
  external (LLMCall prompt) (llm_invoke C prompt).

(** [self.chain.invoke(query)]:
    [{"context": retriever | format_docs, "question": passthrough}
     | prompt_template | llm | StrOutputParser()]. *)
Definition chain_invoke (query : string) : Py W string :=
  do docs <- retrieve query;
  let context := format_docs docs in
  generate (prompt_template context query).

(** [RAGChain.invoke] *)
Definition invoke (query : string) : Py W string :=
  chain_invoke query.

(** The dict returned by [get_context_and_answer]. *)
Record Result : Type := mkResult {
  r_query : string;
  r_context : string;
  r_answer : string;
  r_sources : list (gmap string pyval)
}.

Definition get_context_and_answer (query : string) : Py W Result :=
  do docs <- retrieve query;
  let context := str_join (nl ++ nl) (map page_content docs) in
  do answer <- invoke query;
  py_ret {| r_query := query;
            r_context := context;
            r_answer := answer;
            r_sources := map doc_metadata docs |}.

End RAGChain.
End RAGChain.

(** ** [langgraph_workflow.py] *)

(** [class GraphState(TypedDict)] *)
Record GraphState : Type := mkGraphState {
  query : string;
  category : string;
  answer : string;
  metadata : gmap string pyval
}.

(** The slice of [langgraph]'s [StateGraph] that the workflow uses: named
    nodes, an entry point, plain edges, and conditional edges made of a
    router and a map from the router's result to a node name. *)
Module LangGraph.
Section LangGraph.

Context {W : Type}.

Definition END : string := "__end__".

Record StateGraph : Type := mkStateGraph {
  nodes : gmap string (GraphState -> Py W GraphState);
  entry_point : option string;
  edges : gmap string string;
  branches : gmap string ((GraphState -> string) * gmap string string)
}.

Definition empty_graph : StateGraph :=
  {| nodes := ∅; entry_point := None; edges := ∅; branches := ∅ |}.

Definition add_node (name : string) (action : GraphState -> Py W GraphState)
    (g : StateGraph) : StateGraph :=
  {| nodes := <[name := action]> (nodes g); entry_point := entry_point g;
     edges := edges g; branches := branches g |}.

Definition set_entry_point (name : string) (g : StateGraph) : StateGraph :=
  {| nodes := nodes g; entry_point := Some name;
     edges := edges g; branches := branches g |}.

Definition add_edge (src dst : string) (g : StateGraph) : StateGraph :=
  {| nodes := nodes g; entry_point := entry_point g;
     edges := <[src := dst]> (edges g); branches := branches g |}.

Definition add_conditional_edges (src : string) (path : GraphState -> string)
    (path_map : gmap string string) (g : StateGraph) : StateGraph :=
  {| nodes := nodes g; entry_point := entry_point g;
     edges := edges g; branches := <[src := (path, path_map)]> (branches g) |}.

(** The successor of node [cur] once it has produced [state]. *)
Definition successor (g : StateGraph) (cur : string) (state : GraphState)
    : option string :=
  match branches g !! cur with
  | Some (path, path_map) => path_map !! path state
  | None => edges g !! cur
  end.

(** Run the graph from node [cur]; one unit of [limit] per node run. *)
Fixpoint run_from (limit : nat) (g : StateGraph) (cur : string)
    (state : GraphState) : Py W GraphState :=
  if bool_decide (cur = END) then py_ret state
  else
    match limit with
    | O => py_raise "Recursion limit reached without hitting a stop condition."
    | S limit' =>
        match nodes g !! cur with
        | None => py_raise ("Unknown node: " ++ cur)
        | Some action =>
            do state' <- action state;
            match successor g cur state' with
            | Some next => run_from limit' g next state'
            | None => py_raise ("No edge out of node: " ++ cur)
            end
        end
    end.

(** [langgraph]'s default [recursion_limit]. *)
Definition recursion_limit : nat := 25.

(** [workflow.compile().invoke(initial_state)] *)
Definition app_invoke (g : StateGraph) (initial_state : GraphState)
    : Py W GraphState :=
  match entry_point g with
  | Some start => run_from recursion_limit g start initial_state
  | None => py_raise "Graph must have an entrypoint"
  end.

End LangGraph.
End LangGraph.

Module RAGWorkflow.
Section RAGWorkflow.

Context {W : Type} `{PyStr} (C : Collaborators W).

(** The f-string [classification_prompt]. *)
Definition classification_prompt (query : string) : string :=
  str_join nl
    [ "Classify the following customer query into ONE category only.";
      "        ";
      "Categories:";
      "- " ++ dquote ++ "products" ++ dquote
        ++ ": Questions about product features, prices, specifications, warranties, or comparisons";
      "- " ++ dquote ++ "returns" ++ dquote
        ++ ": Questions about return policy, refund process, or exchange procedures";
      "- " ++ dquote ++ "general" ++ dquote
        ++ ": General support questions, contact information, or business hours";
      "- " ++ dquote ++ "unknown" ++ dquote
        ++ ": Queries that are out of scope, unclear, or not related to our products/services";
      EmptyString;
      "Query: " ++ query;
      EmptyString;
      "Respond with ONLY the category name (products, returns, general, or unknown). No explanation." ].

Definition valid_categories : list string :=
  ["products"; "returns"; "general"; "unknown"].

(** [response.content.strip()]: an [AttributeError] when the content is
    not a [str]. *)
Definition content_strip (c : content) : Py W string :=
  match c with
  | ContentStr s => py_ret (str_strip s)
  | ContentParts _ => py_raise "'list' object has no attribute 'strip'"
  end.

(** Node 1 *)
Definition classifier_node (state : GraphState) : Py W GraphState :=
  let prompt := classification_prompt (query state) in
  try_except
    (do response <- external (ClassifierCall prompt) (classifier_llm_invoke C prompt);
     do stripped <- content_strip response;
     let category := str_lower stripped in
     let category :=
       if bool_decide (category ∈ valid_categories) then category else "unknown" in
     py_ret {| query := query state;
               category := category;
               answer := answer state;
               metadata := {[ "classifier" := PStr "success" ]} |})
    (fun e =>
       py_ret {| query := query state;
                 category := "unknown";
                 answer := answer state;
                 metadata := {[ "classifier" := PStr "error"; "error" := PStr e ]} |}).

Definition rag_fallback_answer : string :=
  "I apologize, but I'm having trouble accessing the information right now. Please try again or contact support.".

(** Node 2 *)
Definition rag_responder_node (state : GraphState) : Py W GraphState :=
  try_except
    (do result <- RAGChain.get_context_and_answer C (query state);
     py_ret {| query := query state;
               category := category state;
               answer := RAGChain.r_answer result;
               metadata :=
                 <[ "rag" := PDict {[ "sources" := PList (map PDict (RAGChain.r_sources result));
                                      "context_used" := PBool true ]} ]>
                   (metadata state) |})
    (fun e =>
       py_ret {| query := query state;
                 category := category state;
                 answer := rag_fallback_answer;
                 metadata := <[ "rag" := PDict {[ "error" := PStr e ]} ]> (metadata state) |}).

Definition support_email : string := "support@techgear.com".
Definition support_hours : string := "Monday-Saturday, 9AM-6PM IST".

Definition general_message : string :=
  str_join nl
    [ "For general inquiries and support:";
      EmptyString;
      "📧 Email: support@techgear.com";
      "⏰ Support Hours: Monday-Saturday, 9AM-6PM IST";
      EmptyString;
      "Our team will be happy to assist you with your questions!" ].

Definition unknown_message : string :=
  str_join nl
    [ "I apologize, but I'm unable to assist with that specific request.";
      EmptyString;
      "For personalized support, please contact our team:";
      "📧 Email: support@techgear.com";
      "⏰ Support Hours: Monday-Saturday, 9AM-6PM IST";
      EmptyString;
      "Our support team will be happy to help you!" ].

(** Node 3 *)
Definition escalation_node (state : GraphState) : Py W GraphState :=
  let escalation_message :=
    if bool_decide (category state = "general") then general_message
    else unknown_message in
  py_ret {| query := query state;
            category := category state;
            answer := escalation_message;
            metadata := <[ "escalation" := PBool true ]> (metadata state) |}.

(** Routing function *)
Definition route_query (state : GraphState) : string :=
  if bool_decide (category state ∈ ["products"; "returns"]) then "rag_responder"
  else "escalation".

Definition _build_graph : LangGraph.StateGraph :=
  let workflow := LangGraph.empty_graph in
  let workflow := LangGraph.add_node "classifier" classifier_node workflow in
  let workflow := LangGraph.add_node "rag_responder" rag_responder_node workflow in
  let workflow := LangGraph.add_node "escalation" escalation_node workflow in
  let workflow := LangGraph.set_entry_point "classifier" workflow in
  let workflow :=
    LangGraph.add_conditional_edges "classifier" route_query
      {[ "rag_responder" := "rag_responder"; "escalation" := "escalation" ]}
      workflow in
  let workflow := LangGraph.add_edge "rag_responder" LangGraph.END workflow in
  let workflow := LangGraph.add_edge "escalation" LangGraph.END workflow in
  workflow.

Definition initial_state (q : string) : GraphState :=
  {| query := q; category := EmptyString; answer := EmptyString; metadata := ∅ |}.

Definition invoke (q : string) : Py W GraphState :=
  LangGraph.app_invoke _build_graph (initial_state q).

End RAGWorkflow.
End RAGWorkflow.

(** ** [api/routes.py] *)

Module Routes.
Section Routes.

Context {W : Type}.

(** [class ChatRequest(BaseModel)]: [query: str = Field(..., min_length=1)] *)
Record ChatRequest : Type := mkChatRequest {
  req_query : string
}.

(** [class ChatResponse(BaseModel)] *)
Record ChatResponse : Type := mkChatResponse {
  resp_query : string;
  resp_answer : string;
  resp_category : option string;
  resp_metadata : option (gmap string pyval)
}.

(** What the caller of [POST /chat] sees: the response model, an
    [HTTPException] raised by the handler, or the framework's rejection
    of a body that does not validate as a [ChatRequest]. *)
Inductive response : Type :=
| OK (body : ChatResponse)
| HTTPException (status_code : nat) (detail : string)
| RequestValidationError.

(** The framework answers a request that fails validation with 422
    (the status [test_api.py] expects for an empty or missing query). *)
Definition status_of (r : response) : nat :=
  match r with
  | OK _ => 200%nat
  | HTTPException status_code _ => status_code
  | RequestValidationError => 422%nat
  end.

(** Validation of the JSON body against [ChatRequest]: the field is
    required, is a string, and has at least one character (a string has
    at least one character exactly when it has at least one byte). *)
Definition parse_chat_request (body : gmap string pyval) : option ChatRequest :=
  match body !! "query" with
  | Some (PStr q) =>
      if bool_decide (1 ≤ String.length q)%nat then Some {| req_query := q |} else None
  | _ => None
  end.

(** [async def chat(request)], with the module-level [workflow] variable
    passed in: [None] until [set_workflow] is called, afterwards an object
    whose [invoke] method is the given function. *)
Definition chat (workflow : option (string -> Py W GraphState))
    (request : ChatRequest) : Py W response :=
  match workflow with
  | None =>
      py_ret (HTTPException 503%nat
                "Chatbot service is not initialized. Please try again later.")
  | Some workflow_invoke =>
      try_except
        (do result <- workflow_invoke (req_query request);
         py_ret (OK {| resp_query := query result;
                       resp_answer := answer result;
                       resp_category := Some (category result);
                       resp_metadata := Some (metadata result) |}))
        (fun e => py_ret (HTTPException 500%nat ("Error processing query: " ++ e)))
  end.

(** [POST /chat]: validate the body, then run the handler. *)
Definition post_chat (workflow : option (string -> Py W GraphState))
    (body : gmap string pyval) : Py W response :=
  match parse_chat_request body with
  | Some request => chat workflow request
  | None => py_ret RequestValidationError
  end.

End Routes.
End Routes.

(** ** Test doubles *)

(** Collaborators that ignore their argument and the world. *)
Definition stub_collaborators (classification : outcome content)
    (retrieval : outcome (list Document)) (generation : outcome string)
    : Collaborators unit :=
  {| classifier_llm_invoke := fun _ w => (classification, w);
     get_relevant_documents := fun _ w => (retrieval, w);
     llm_invoke := fun _ w => (generation, w) |}.

Definition chunk (text : string) (i : Z) : Document :=
  {| page_content := text;
     doc_metadata := {[ "source" := PStr "./product_info.txt"; "chunk_id" := PInt i ]} |}.

(** A retriever over a world that counts its calls: the first call finds
    chunk 0, every later call finds chunk 1.  The generator echoes its
    prompt. *)
Definition drifting_collaborators : Collaborators nat :=
  {| classifier_llm_invoke := fun _ n => (Returned (ContentStr "products"), n);
     get_relevant_documents := fun _ n =>
       (Returned [if bool_decide (n = 0%nat) then chunk "SmartWatch Pro X" 0
                  else chunk "Wireless Earbuds Elite" 1], S n);
     llm_invoke := fun prompt n => (Returned prompt, n) |}.

(** Collaborators over a world that counts every call made, each answering
    from its argument alone. *)
Definition counting_collaborators : Collaborators nat :=
  {| classifier_llm_invoke := fun _ n => (Returned (ContentStr " Returns "), S n);
     get_relevant_documents := fun q n => (Returned [chunk ("Policy for: " ++ q) 7], S n);
     llm_invoke := fun prompt n => (Returned ("Echo: " ++ prompt), S n) |}.

Definition start {W : Type} (w : W) : Sys W := {| world := w; calls := [] |}.

(** A collaborator is deterministic when what it returns or raises is a
    function of its argument alone. *)
Definition deterministic {W A : Type} (f : string -> W -> outcome A * W) : Prop :=
  ∀ x w1 w2, (f x w1).1 = (f x w2).1.

(** The number of retriever calls in a call log. *)
Definition retrievals (q : string) (log : list event) : nat :=
  length (filter (λ ev, ev = RetrieverCall q) log).

(** A metadata dict that holds, under its [classifier] key, a mapping with
    an [error] entry. *)
Definition error_under_classifier_key (m : gmap string pyval) : Prop :=
  ∃ d reason, m !! "classifier" = Some (PDict d) ∧ d !! "error" = Some reason.

(** The two states the Respond stage is specified to end in: the
    generator's output with [metadata.rag = {sources, context_used: true}],
    and the fixed fallback with [metadata.rag = {error: reason}]. *)
Definition respond_success (st : GraphState) (generated : string)
    (retrieved : list Document) : GraphState :=
  {| query := query st;
     category := category st;
     answer := generated;
     metadata :=
       <[ "rag" := PDict {[ "sources" := PList (map PDict (map doc_metadata retrieved));
                            "context_used" := PBool true ]} ]> (metadata st) |}.

Definition respond_failure (st : GraphState) (reason : string) : GraphState :=
  {| query := query st;
     category := category st;
     answer := RAGWorkflow.rag_fallback_answer;
     metadata := <[ "rag" := PDict {[ "error" := PStr reason ]} ]> (metadata st) |}.

(** * Start-up and the parts around the workflow *)

(** ** [config.py] *)

Module Config.

(** [class Settings(BaseSettings)].  The float [temperature] is passed on
    to the generation client only and is left out. *)
Record Settings : Type := mkSettings {
  google_api_key : string;
  chroma_db_dir : string;
  collection_name : string;
  knowledge_base_path : string;
  chunk_size : Z;
  chunk_overlap : Z;
  top_k_results : Z;
  model_name : string
}.

End Config.

(** [VectorStoreRetriever], as [as_retriever(search_type=...,
    search_kwargs={"k": ..., "fetch_k": ...})] builds it. *)
Record Retriever (Chroma : Type) : Type := mkRetriever {
  search_type : string;
  search_k : Z;
  search_fetch_k : Z;
  retriever_vectorstore : Chroma
}.
Arguments mkRetriever {Chroma} _ _ _ _.
Arguments search_type {Chroma} _.
Arguments search_k {Chroma} _.
Arguments search_fetch_k {Chroma} _.
Arguments retriever_vectorstore {Chroma} _.

(** Which of the two chat clients is built: the classifier's
    ([temperature=0.1], [max_output_tokens=10]) or the answering one
    ([temperature=settings.temperature], [max_output_tokens=150]). *)
Inductive chat_role : Type := ClassifierClient | AnswerClient.

(** Everything the start-up code calls outside the repository: the file
    system, and the constructors and methods of the langchain, Chroma and
    Gemini client objects.  Each is a function of the world that returns
    or raises. *)
Record Platform (W Embeddings Chroma ChatModel : Type) : Type := mkPlatform {
  (** [Path(p).exists()] *)
  path_exists : string -> W -> outcome bool * W;
  (** [open(p, 'r', encoding='utf-8').read()] *)
  read_text : string -> W -> outcome string * W;
  (** [any(Path(p).iterdir())] *)
  dir_has_entries : string -> W -> outcome bool * W;
  (** [RecursiveCharacterTextSplitter(chunk_size, chunk_overlap, ...)],
      giving its [split_text] *)
  make_text_splitter : Z -> Z -> W -> outcome (string -> list string) * W;
  (** [GoogleGenerativeAIEmbeddings(model, google_api_key)] *)
  make_embeddings : string -> W -> outcome Embeddings * W;
  (** [Chroma.from_documents(documents, embedding, collection_name,
      persist_directory)] *)
  chroma_from_documents :
    list Document -> Embeddings -> string -> string -> W -> outcome Chroma * W;
  (** [Chroma(collection_name, embedding_function, persist_directory)] *)
  chroma_open : string -> Embeddings -> string -> W -> outcome Chroma * W;
  (** [store.similarity_search(query, k=k)] *)
  chroma_similarity_search :
    Chroma -> string -> Z -> W -> outcome (list Document) * W;
  (** [retriever.get_relevant_documents(query)] *)
  retriever_search : Retriever Chroma -> string -> W -> outcome (list Document) * W;
  (** [ChatGoogleGenerativeAI(model, google_api_key, ...)] *)
  make_chat_model : chat_role -> string -> string -> W -> outcome ChatModel * W;
  (** [client.invoke(prompt).content] *)
  chat_content : ChatModel -> string -> W -> outcome content * W;
  (** [(client | StrOutputParser()).invoke(prompt)] *)
  chat_text : ChatModel -> string -> W -> outcome string * W
}.
Arguments path_exists {W Embeddings Chroma ChatModel} _ _ _.
Arguments read_text {W Embeddings Chroma ChatModel} _ _ _.
Arguments dir_has_entries {W Embeddings Chroma ChatModel} _ _ _.
Arguments make_text_splitter {W Embeddings Chroma ChatModel} _ _ _ _.
Arguments make_embeddings {W Embeddings Chroma ChatModel} _ _ _.
Arguments chroma_from_documents {W Embeddings Chroma ChatModel} _ _ _ _ _ _.
Arguments chroma_open {W Embeddings Chroma ChatModel} _ _ _ _ _.
Arguments chroma_similarity_search {W Embeddings Chroma ChatModel} _ _ _ _ _.
Arguments retriever_search {W Embeddings Chroma ChatModel} _ _ _ _.
Arguments make_chat_model {W Embeddings Chroma ChatModel} _ _ _ _ _.
Arguments chat_content {W Embeddings Chroma ChatModel} _ _ _ _.
Arguments chat_text {W Embeddings Chroma ChatModel} _ _ _ _.

(** An external call that the call log does not track. *)
Definition probe {W A : Type} (f : W -> outcome A * W) : Py W A :=
  fun s =>
    let '(r, w') := f (world s) in
    (r, {| world := w'; calls := calls s |}).

(** ** [document_loader.py] *)

Module DocumentLoader.
Section DocumentLoader.

Context {W Embeddings Chroma ChatModel : Type}.
Context (settings : Config.Settings) (P : Platform W Embeddings Chroma ChatModel).

(** The object: its two sizes and the [split_text] of its splitter. *)
Record Loader : Type := mkLoader {
  chunk_size : Z;
  chunk_overlap : Z;
  text_splitter : string -> list string
}.

(** [__init__] *)
Definition init : Py W Loader :=
  do split_text <- probe (make_text_splitter P (Config.chunk_size settings)
                                             (Config.chunk_overlap settings));
  py_ret {| chunk_size := Config.chunk_size settings;
            chunk_overlap := Config.chunk_overlap settings;
            text_splitter := split_text |}.

Definition load_document (file_path : string) : Py W string :=
  do found <- probe (path_exists P file_path);
  if negb found then py_raise ("Document not found: " ++ file_path)
  else probe (read_text P file_path).

(** [Document(page_content=chunk, metadata={"source": ..., "chunk_id": i})
     for i, chunk in enumerate(chunks)] *)
Definition split_documents (self : Loader) (text : string) : list Document :=
  let chunks := text_splitter self text in
  imap (fun i chunk =>
          {| page_content := chunk;
             doc_metadata :=
               {[ "source" := PStr (Config.knowledge_base_path settings);
                  "chunk_id" := PInt (Z.of_nat i) ]} |})
       chunks.

Definition load_and_split (self : Loader) (file_path : option string)
    : Py W (list Document) :=
  let file_path := default (Config.knowledge_base_path settings) file_path in
  do text <- load_document file_path;
  let documents := split_documents self text in
  py_ret documents.

End DocumentLoader.
End DocumentLoader.

(** ** [vectorstore.py] *)

Module VectorStore.
Section VectorStore.

Context {W Embeddings Chroma ChatModel : Type}.
Context (settings : Config.Settings) (P : Platform W Embeddings Chroma ChatModel).

(** The object's attributes.  A method that assigns to [self] returns the
    updated object next to its result; when it raises, nothing has been
    assigned and the caller's object stands. *)
Record Store : Type := mkStore {
  chroma_db_dir : string;
  collection_name : string;
  embeddings : Embeddings;
  vectorstore : option Chroma;
  retriever : option (Retriever Chroma)
}.

(** [__init__] *)
Definition init : Py W Store :=
  do emb <- probe (make_embeddings P (Config.google_api_key settings));
  py_ret {| chroma_db_dir := Config.chroma_db_dir settings;
            collection_name := Config.collection_name settings;
            embeddings := emb;
            vectorstore := None;
            retriever := None |}.

Definition create_vectorstore (self : Store) (documents : list Document)
    : Py W (Chroma * Store) :=
  do db <- probe (chroma_from_documents P documents (embeddings self)
                    (collection_name self) (chroma_db_dir self));
  py_ret (db, {| chroma_db_dir := chroma_db_dir self;
                 collection_name := collection_name self;
                 embeddings := embeddings self;
                 vectorstore := Some db;
                 retriever := retriever self |}).

Definition load_vectorstore (self : Store) : Py W (Chroma * Store) :=
  do db <- probe (chroma_open P (collection_name self) (embeddings self)
                    (chroma_db_dir self));
  py_ret (db, {| chroma_db_dir := chroma_db_dir self;
                 collection_name := collection_name self;
                 embeddings := embeddings self;
                 vectorstore := Some db;
                 retriever := retriever self |}).

Definition get_retriever (self : Store) (k : option Z)
    : Py W (Retriever Chroma * Store) :=
  match vectorstore self with
  | None =>
      py_raise "Vector store not initialized. Call create_vectorstore or load_vectorstore first."
  | Some db =>
      let k := default (Config.top_k_results settings) k in
      let r := {| search_type := "similarity";
                  search_k := k;
                  search_fetch_k := (k * 2)%Z;
                  retriever_vectorstore := db |} in
      py_ret (r, {| chroma_db_dir := chroma_db_dir self;
                    collection_name := collection_name self;
                    embeddings := embeddings self;
                    vectorstore := vectorstore self;
                    retriever := Some r |})
  end.

Definition similarity_search (self : Store) (query : string) (k : option Z)
    : Py W (list Document) :=
  match vectorstore self with
  | None => py_raise "Vector store not initialized"
  | Some db =>
      let k := default (Config.top_k_results settings) k in
      probe (chroma_similarity_search P db query k)
  end.

End VectorStore.
End VectorStore.

(** ** [main.py] and the health endpoint of [api/routes.py] *)

Module Main.
Section Main.

Context {W Embeddings Chroma ChatModel : Type}.
Context (settings : Config.Settings) (P : Platform W Embeddings Chroma ChatModel).

(** The attributes of a [RAGChain] that its methods use. *)
Record Chain : Type := mkChain {
  chain_vectorstore : VectorStore.Store (Embeddings:=Embeddings) (Chroma:=Chroma);
  chain_retriever : Retriever Chroma;
  chain_llm : ChatModel
}.

(** [RAGChain.__init__]: the retriever comes from
    [vectorstore.get_retriever()], then the client is built. *)
Definition chain_init (vectorstore : VectorStore.Store) : Py W Chain :=
  do got <- VectorStore.get_retriever settings vectorstore None;
  do llm <- probe (make_chat_model P AnswerClient (Config.model_name settings)
                     (Config.google_api_key settings));
  py_ret {| chain_vectorstore := got.2;
            chain_retriever := got.1;
            chain_llm := llm |}.

(** The attributes of a [RAGWorkflow]. *)
Record Workflow : Type := mkWorkflow {
  rag_chain : Chain;
  classifier_llm : ChatModel
}.

(** [RAGWorkflow.__init__] *)
Definition workflow_init (chain : Chain) : Py W Workflow :=
  do llm <- probe (make_chat_model P ClassifierClient (Config.model_name settings)
                     (Config.google_api_key settings));
  py_ret {| rag_chain := chain; classifier_llm := llm |}.

(** The three collaborators of a constructed workflow. *)
Definition collaborators_of (wf : Workflow) : Collaborators W :=
  {| classifier_llm_invoke := chat_content P (classifier_llm wf);
     get_relevant_documents := retriever_search P (chain_retriever (rag_chain wf));
     llm_invoke := chat_text P (chain_llm (rag_chain wf)) |}.

Definition placeholder_key : string := "your_gemini_api_key_here".

(** The start-up half of [lifespan], up to [routes.set_workflow(workflow)]:
    it returns the workflow it installs.  The [except Exception] clause
    prints and re-raises, so it is the identity here. *)
Definition lifespan : Py W Workflow :=
  if bool_decide (Config.google_api_key settings = EmptyString)
     || bool_decide (Config.google_api_key settings = placeholder_key)
  then py_raise "GOOGLE_API_KEY not configured"
  else
    do doc_loader <- DocumentLoader.init settings P;
    do documents <-
      DocumentLoader.load_and_split settings P doc_loader
        (Some (Config.knowledge_base_path settings));
    do vectorstore <- VectorStore.init settings P;
    do found <- probe (path_exists P (Config.chroma_db_dir settings));
    do populated <-
      (if found then probe (dir_has_entries P (Config.chroma_db_dir settings))
       else py_ret false);
    do loaded <-
      (if populated then VectorStore.load_vectorstore P vectorstore
       else VectorStore.create_vectorstore P vectorstore documents);
    do chain <- chain_init loaded.2;
    do workflow <- workflow_init chain;
    py_ret workflow.

(** [GET /health], given the module-level [workflow] variable of
    [api/routes.py]. *)
Definition health_check (workflow : option (string -> Py W GraphState))
    : gmap string pyval :=
  {[ "status" := PStr "healthy";
     "service" := PStr "RAG Chatbot";
     "workflow_initialized" :=
       PBool (match workflow with Some _ => true | None => false end) ]}.

End Main.
End Main.

(** Applying a function to what a call returned. *)
Definition outcome_map {A B : Type} (f : A -> B) (r : outcome A) : outcome B :=
  match r with
  | Returned a => Returned (f a)
  | Raised e => Raised e
  end.

(** The total length of the chunk texts. *)
Definition total_length (docs : list Document) : nat :=
  foldr (fun d n => (String.length (page_content d) + n)%nat) 0%nat docs.



(** Cutting a text at its line breaks. *)
Fixpoint split_lines (text : string) : list string :=
  match text with
  | EmptyString => [EmptyString]
  | String c rest =>
      if bool_decide (c = "010"%char) then EmptyString :: split_lines rest
      else match split_lines rest with
           | [] => [String c EmptyString]
           | line :: lines => String c line :: lines
           end
  end.

(** A platform held in memory, over a world that counts the calls made.
    Files and directories are finite maps; the splitter cuts at line
    breaks; a store is the list of documents it holds, an opened one holds
    none; a search returns the first [k] documents; the clients answer
    with fixed texts. *)
Definition memory_platform (files : gmap string string)
    (dirs : gmap string (list string))
    : Platform nat unit (list Document) chat_role :=
  {| path_exists := fun p n =>
       (Returned (bool_decide (is_Some (files !! p))
                  || bool_decide (is_Some (dirs !! p))), S n);
     read_text := fun p n =>
       (match files !! p with
        | Some text => Returned text
        | None => Raised "Is a directory"
        end, S n);
     dir_has_entries := fun p n =>
       (match dirs !! p with
        | Some entries => Returned (negb (bool_decide (entries = [])))
        | None => Raised "Not a directory"
        end, S n);
     make_text_splitter := fun _ _ n => (Returned split_lines, S n);
     make_embeddings := fun _ n => (Returned tt, S n);
     chroma_from_documents := fun documents _ _ _ n => (Returned documents, S n);
     chroma_open := fun _ _ _ n => (Returned [], S n);
     chroma_similarity_search := fun db _ k n => (Returned (take (Z.to_nat k) db), S n);
     retriever_search := fun r _ n =>
       (Returned (take (Z.to_nat (search_k r)) (retriever_vectorstore r)), S n);
     make_chat_model := fun role _ _ n => (Returned role, S n);
     chat_content := fun _ _ n => (Returned (ContentStr "products"), S n);
     chat_text := fun _ prompt n => (Returned "It costs 15,999.", S n) |}.

Definition demo_settings : Config.Settings :=
  {| Config.google_api_key := "key-123";
     Config.chroma_db_dir := "./chroma_db";
     Config.collection_name := "product_knowledge_base";
     Config.knowledge_base_path := "./product_info.txt";
     Config.chunk_size := 200;
     Config.chunk_overlap := 50;
     Config.top_k_results := 3;
     Config.model_name := "gemini-1.5-flash" |}.

Definition demo_files : gmap string string :=
  {[ "./product_info.txt" := "SmartWatch Pro X" ++ nl ++ "Wireless Earbuds Elite";
     "./draft.txt" := "Draft" ]}.

(** The message of [get_retriever]'s [ValueError]. *)
Definition not_initialized : string :=
  "Vector store not initialized. Call create_vectorstore or load_vectorstore first.".

Definition demo_loader : DocumentLoader.Loader :=
  {| DocumentLoader.chunk_size := 200;
     DocumentLoader.chunk_overlap := 50;
     DocumentLoader.text_splitter := split_lines |}.

(** An index directory that holds a database file. *)
Definition demo_dirs : gmap string (list string) :=
  {[ "./chroma_db" := ["chroma.sqlite3"] ]}.

(** The settings of an installation whose [.env] was never filled in. *)
Definition unset_settings : Config.Settings :=
  {| Config.google_api_key := EmptyString;
     Config.chroma_db_dir := "./chroma_db";
     Config.collection_name := "product_knowledge_base";
     Config.knowledge_base_path := "./product_info.txt";
     Config.chunk_size := 200;
     Config.chunk_overlap := 50;
     Config.top_k_results := 3;
     Config.model_name := "gemini-1.5-flash" |}.

(** * Properties of the graph executor *)

Section GraphProperties.

Context {W : Type}.
Implicit Types (g : LangGraph.StateGraph (W:=W)) (st : GraphState).

Lemma run_from_END n g st :
  LangGraph.run_from n g LangGraph.END st = py_ret st.
Proof. destruct n; reflexivity. Qed.

Lemma run_from_node n g cur action st :
  cur ≠ LangGraph.END →
  LangGraph.nodes g !! cur = Some action →
  LangGraph.run_from (S n) g cur st =
    (do st' <- action st;
     match LangGraph.successor g cur st' with
     | Some next => LangGraph.run_from n g next st'
     | None => py_raise ("No edge out of node: " ++ cur)
     end).
Proof.
  intros Hne Hnode. simpl. rewrite bool_decide_false by done.
  by rewrite Hnode.
Qed.

(** A node whose only edge leads to [END] is run once and the run stops. *)
Lemma run_from_last n g cur action st s :
  cur ≠ LangGraph.END →
  LangGraph.nodes g !! cur = Some action →
  (∀ st', LangGraph.successor g cur st' = Some LangGraph.END) →
  LangGraph.run_from (S n) g cur st s = action st s.
Proof.
  intros Hne Hnode Hsucc. rewrite (run_from_node n g cur action) by done.
  unfold py_bind. destruct (action st s) as [[st'|e] s']; [|done].
  by rewrite Hsucc, run_from_END.
Qed.

End GraphProperties.

(** * Properties of the RAG chain *)

Section ChainProperties.

Import RAGChain.
Context {W : Type} (C : Collaborators W).
Implicit Types (s : Sys W) (q : string) (docs : list Document).

Lemma format_docs_nil : format_docs [] = EmptyString.
Proof. reflexivity. Qed.

Lemma format_docs_one d : format_docs [d] = page_content d.
Proof. reflexivity. Qed.

Lemma format_docs_cons d d' docs :
  format_docs (d :: d' :: docs)
  = page_content d ++ (nl ++ nl) ++ format_docs (d' :: docs).
Proof. reflexivity. Qed.

Lemma chain_invoke_eq q s :
  let r := get_relevant_documents C q (world s) in
  chain_invoke C q s =
    match r.1 with
    | Returned docs =>
        let prompt := prompt_template (format_docs docs) q in
        let g := llm_invoke C prompt r.2 in
        (g.1, {| world := g.2;
                 calls := calls s ++ [RetrieverCall q; LLMCall prompt] |})
    | Raised e =>
        (Raised e, {| world := r.2; calls := calls s ++ [RetrieverCall q] |})
    end.
Proof.
  cbv zeta. unfold chain_invoke, retrieve, generate, py_bind, external.
  destruct (get_relevant_documents C q (world s)) as [[docs|e] w1]; simpl; [|done].
  destruct (llm_invoke C _ w1) as [g w2]; simpl.
  by rewrite <- app_assoc.
Qed.

Lemma get_context_and_answer_eq q s :
  let r := get_relevant_documents C q (world s) in
  get_context_and_answer C q s =
    match r.1 with
    | Returned docs =>
        match chain_invoke C q {| world := r.2; calls := calls s ++ [RetrieverCall q] |} with
        | (Returned generated, s') =>
            (Returned {| r_query := q;
                         r_context := format_docs docs;
                         r_answer := generated;
                         r_sources := map doc_metadata docs |}, s')
        | (Raised e, s') => (Raised e, s')
        end
    | Raised e =>
        (Raised e, {| world := r.2; calls := calls s ++ [RetrieverCall q] |})
    end.
Proof.
  cbv zeta. unfold get_context_and_answer, invoke, py_bind.
  unfold retrieve at 1. unfold external.
  destruct (get_relevant_documents C q (world s)) as [[docs|e] w1]; simpl; [|done].
  by destruct (chain_invoke C q _) as [[generated|e] s'].
Qed.

(** C7. When the retrieval made for the answer prompt returns [docs],
    the generation model is called, whatever [docs] is, on the template
    rendered with the chunk texts joined in retrieval order; for no
    chunks that context is the empty string and the call is still made.
    [get_context_and_answer] likewise goes on to run the chain after its
    own retrieval, with no test on the number of chunks. *)
Theorem empty_retrieval_still_generates q s docs w1 :
  get_relevant_documents C q (world s) = (Returned docs, w1) →
  let prompt := prompt_template (format_docs docs) q in
  chain_invoke C q s
    = ((llm_invoke C prompt w1).1,
       {| world := (llm_invoke C prompt w1).2;
          calls := calls s ++ [RetrieverCall q; LLMCall prompt] |})
  ∧ get_context_and_answer C q s
    = match chain_invoke C q {| world := w1; calls := calls s ++ [RetrieverCall q] |} with
      | (Returned generated, s') =>
          (Returned {| r_query := q;
                       r_context := format_docs docs;
                       r_answer := generated;
                       r_sources := map doc_metadata docs |}, s')
      | (Raised e, s') => (Raised e, s')
      end
  ∧ (docs = [] → format_docs docs = EmptyString
                 ∧ prompt = prompt_template EmptyString q)
  ∧ (∀ d, docs = [d] → format_docs docs = page_content d)
  ∧ (∀ d d' rest, docs = d :: d' :: rest →
       format_docs docs = page_content d ++ (nl ++ nl) ++ format_docs (d' :: rest)).
Proof.
  intros Hret. cbv zeta.
  split; [by rewrite chain_invoke_eq, Hret|].
  split; [by rewrite get_context_and_answer_eq, Hret|].
  split; [by intros ->|].
  split; [by intros d ->|by intros d d' rest ->].
Qed.

End ChainProperties.

(** * Properties of the workflow *)

Section WorkflowProperties.

Import RAGWorkflow.
Context {W : Type} `{PyStr} (C : Collaborators W).
Implicit Types (st : GraphState) (s : Sys W) (q : string).

Lemma nodes_classifier :
  LangGraph.nodes (_build_graph C) !! "classifier" = Some (classifier_node C).
Proof. reflexivity. Qed.

Lemma nodes_rag_responder :
  LangGraph.nodes (_build_graph C) !! "rag_responder" = Some (rag_responder_node C).
Proof. reflexivity. Qed.

Lemma nodes_escalation :
  LangGraph.nodes (_build_graph C) !! "escalation" = Some escalation_node.
Proof. reflexivity. Qed.

Lemma successor_classifier st :
  LangGraph.successor (_build_graph C) "classifier" st = Some (route_query st).
Proof.
  change (LangGraph.successor (_build_graph C) "classifier" st)
    with (({[ "rag_responder" := "rag_responder"; "escalation" := "escalation" ]}
             : gmap string string) !! route_query st).
  unfold route_query. case_bool_decide; reflexivity.
Qed.

Lemma successor_rag_responder st :
  LangGraph.successor (_build_graph C) "rag_responder" st = Some LangGraph.END.
Proof. reflexivity. Qed.

Lemma successor_escalation st :
  LangGraph.successor (_build_graph C) "escalation" st = Some LangGraph.END.
Proof. reflexivity. Qed.

Lemma route_query_cases st :
  route_query st = "rag_responder"
    ∧ (category st = "products" ∨ category st = "returns")
  ∨ route_query st = "escalation"
    ∧ category st ≠ "products" ∧ category st ≠ "returns".
Proof.
  unfold route_query.
  destruct (decide (category st ∈ ["products"; "returns"])) as [Hin|Hin].
  - rewrite bool_decide_true by done. left.
    rewrite !elem_of_cons, elem_of_nil in Hin. split; [reflexivity | tauto].
  - rewrite bool_decide_false by done. right.
    rewrite !elem_of_cons, elem_of_nil in Hin. split; [reflexivity | tauto].
Qed.

(** The whole graph run is: classify, then exactly one of the two
    terminal nodes, chosen by [route_query]; the recursion limit is
    never reached. *)
Lemma invoke_eq q s :
  invoke C q s =
    (do st <- classifier_node C (initial_state q);
     if bool_decide (category st ∈ ["products"; "returns"])
     then rag_responder_node C st else escalation_node st) s.
Proof.
  unfold invoke, LangGraph.app_invoke.
  change (LangGraph.entry_point (_build_graph C)) with (Some "classifier").
  cbv beta iota. unfold LangGraph.recursion_limit.
  rewrite (run_from_node _ _ _ (classifier_node C));
    [| discriminate | exact nodes_classifier].
  unfold py_bind.
  destruct (classifier_node C (initial_state q) s) as [[st|e] s1]; [|done].
  rewrite successor_classifier. unfold route_query. case_bool_decide.
  - apply run_from_last;
      [discriminate | exact nodes_rag_responder | exact successor_rag_responder].
  - apply run_from_last;
      [discriminate | exact nodes_escalation | exact successor_escalation].
Qed.

(** C2. Route is a pure, total function of the category alone: it picks
    [rag_responder] exactly for [products] and [returns], [escalation]
    for [general], [unknown] and every other value, the graph follows its
    choice, and it returns a node name without touching the state. *)
Theorem route_query_total st :
  (route_query st = "rag_responder"
     ∧ (category st = "products" ∨ category st = "returns")
   ∨ route_query st = "escalation"
     ∧ category st ≠ "products" ∧ category st ≠ "returns")
  ∧ (∀ q a m, route_query (mkGraphState q (category st) a m) = route_query st)
  ∧ (∀ q a m, route_query (mkGraphState q "products" a m) = "rag_responder"
              ∧ route_query (mkGraphState q "returns" a m) = "rag_responder"
              ∧ route_query (mkGraphState q "general" a m) = "escalation"
              ∧ route_query (mkGraphState q "unknown" a m) = "escalation")
  ∧ LangGraph.successor (_build_graph C) "classifier" st = Some (route_query st).
Proof.
  split; [apply route_query_cases|].
  split; [reflexivity|].
  split; [intros; repeat split; reflexivity|].
  apply successor_classifier.
Qed.

Lemma classifier_node_eq st s :
  let prompt := classification_prompt (query st) in
  let r := classifier_llm_invoke C prompt (world s) in
  let s' := {| world := r.2; calls := calls s ++ [ClassifierCall prompt] |} in
  let failed e :=
    {| query := query st; category := "unknown"; answer := answer st;
       metadata := {[ "classifier" := PStr "error"; "error" := PStr e ]} |} in
  classifier_node C st s =
    match r.1 with
    | Returned (ContentStr raw) =>
        (Returned {| query := query st;
                     category :=
                       if bool_decide (str_lower (str_strip raw) ∈ valid_categories)
                       then str_lower (str_strip raw) else "unknown";
                     answer := answer st;
                     metadata := {[ "classifier" := PStr "success" ]} |}, s')
    | Returned (ContentParts _) =>
        (Returned (failed "'list' object has no attribute 'strip'"), s')
    | Raised e => (Returned (failed e), s')
    end.
Proof.
  cbv zeta. unfold classifier_node, try_except, py_bind, external.
  destruct (classifier_llm_invoke C _ (world s)) as [[[raw|parts]|e] w']; reflexivity.
Qed.

Lemma classifier_node_returns st s :
  ∃ st' s',
    classifier_node C st s = (Returned st', s')
    ∧ query st' = query st
    ∧ answer st' = answer st
    ∧ category st' ∈ valid_categories.
Proof.
  rewrite classifier_node_eq. cbv zeta.
  destruct (classifier_llm_invoke C _ (world s)) as [[[raw|parts]|e] w']; simpl;
    eexists _, _; (split; [reflexivity|]); simpl;
    (split; [done|]); (split; [done|]);
    try case_bool_decide; try done;
    unfold valid_categories; rewrite !elem_of_cons; tauto.
Qed.

(** C3. Whatever the classification model answers, and also when the
    call raises, the Classify stage returns, with a category among
    [products], [returns], [general], [unknown]: the stripped and
    lowercased answer when that is one of the four, and [unknown] for
    every other answer, for a non-string answer and for an exception. *)
Theorem classifier_node_category st s :
  ∃ st' s',
    classifier_node C st s = (Returned st', s')
    ∧ category st' ∈ valid_categories
    ∧ match (classifier_llm_invoke C (classification_prompt (query st)) (world s)).1 with
      | Returned (ContentStr raw) =>
          category st' =
            if bool_decide (str_lower (str_strip raw) ∈ valid_categories)
            then str_lower (str_strip raw) else "unknown"
      | Returned (ContentParts _) => category st' = "unknown"
      | Raised _ => category st' = "unknown"
      end.
Proof.
  rewrite classifier_node_eq. cbv zeta.
  destruct (classifier_llm_invoke C _ (world s)) as [[[raw|parts]|e] w']; simpl;
    eexists _, _; (split; [reflexivity|]); simpl.
  - split; [|done]. case_bool_decide; [done|]. unfold valid_categories. set_solver.
  - split; [|done]. unfold valid_categories. set_solver.
  - split; [|done]. unfold valid_categories. set_solver.
Qed.

(** C4, as the code has it.  When the classifier call raises (or its
    answer is not a string), the category is [unknown] and the metadata
    is [{"classifier": "error", "error": str(e)}]: the [classifier] key
    holds the string [error] and the description sits beside it under
    [error].  When the answer is a string outside the four categories,
    the category is [unknown] and the metadata is
    [{"classifier": "success"}], the same as for an accepted answer. *)
Theorem classifier_node_metadata st s :
  ∃ st' s',
    classifier_node C st s = (Returned st', s')
    ∧ match (classifier_llm_invoke C (classification_prompt (query st)) (world s)).1 with
      | Returned (ContentStr raw) =>
          metadata st' = {[ "classifier" := PStr "success" ]}
          ∧ (str_lower (str_strip raw) ∉ valid_categories → category st' = "unknown")
      | Returned (ContentParts _) =>
          category st' = "unknown"
          ∧ metadata st' =
              {[ "classifier" := PStr "error";
                 "error" := PStr "'list' object has no attribute 'strip'" ]}
      | Raised e =>
          category st' = "unknown"
          ∧ metadata st' = {[ "classifier" := PStr "error"; "error" := PStr e ]}
      end.
Proof.
  rewrite classifier_node_eq. cbv zeta.
  destruct (classifier_llm_invoke C _ (world s)) as [[[raw|parts]|e] w']; simpl;
    eexists _, _; (split; [reflexivity|]); simpl; [|done..].
  split; [done|]. intros Hout. by rewrite bool_decide_false.
Qed.

(** C6. Escalate returns, leaves query and category alone, sets
    [metadata.escalation] to true, and answers with one of two fixed
    messages chosen by the category alone: the support-information
    message for [general], the apology for every other category.  Both
    carry the support email and the support hours. *)
Theorem escalation_node_messages st s :
  escalation_node st s =
    (Returned {| query := query st;
                 category := category st;
                 answer := if bool_decide (category st = "general")
                           then general_message else unknown_message;
                 metadata := <[ "escalation" := PBool true ]> (metadata st) |}, s)
  ∧ (∀ q a m, ∃ st',
       escalation_node (mkGraphState q (category st) a m) s = (Returned st', s)
       ∧ answer st' = if bool_decide (category st = "general")
                      then general_message else unknown_message)
  ∧ is_substring support_email general_message = true
  ∧ is_substring support_hours general_message = true
  ∧ is_substring "I apologize" unknown_message = true
  ∧ is_substring support_email unknown_message = true
  ∧ is_substring support_hours unknown_message = true
  ∧ general_message ≠ unknown_message.
Proof.
  split; [reflexivity|].
  split; [|by vm_compute].
  intros q a m. eexists. split; reflexivity.
Qed.

Lemma rag_responder_node_eq st s :
  let q := query st in
  let r1 := get_relevant_documents C q (world s) in
  let r2 := get_relevant_documents C q r1.2 in
  rag_responder_node C st s =
    match r1.1 with
    | Returned docs =>
        match r2.1 with
        | Returned docs' =>
            let prompt := RAGChain.prompt_template (RAGChain.format_docs docs') q in
            let g := llm_invoke C prompt r2.2 in
            (Returned match g.1 with
                      | Returned generated => respond_success st generated docs
                      | Raised e => respond_failure st e
                      end,
             {| world := g.2;
                calls := calls s ++ [RetrieverCall q; RetrieverCall q; LLMCall prompt] |})
        | Raised e =>
            (Returned (respond_failure st e),
             {| world := r2.2;
                calls := calls s ++ [RetrieverCall q; RetrieverCall q] |})
        end
    | Raised e =>
        (Returned (respond_failure st e),
         {| world := r1.2; calls := calls s ++ [RetrieverCall q] |})
    end.
Proof.
  cbv zeta. unfold rag_responder_node, try_except, py_bind.
  rewrite get_context_and_answer_eq. cbv zeta.
  destruct (get_relevant_documents C (query st) (world s)) as [[docs|e] w1];
    simpl; [|done].
  rewrite chain_invoke_eq. cbv zeta. simpl.
  destruct (get_relevant_documents C (query st) w1) as [[docs'|e] w2]; simpl.
  - rewrite <- !app_assoc. simpl.
    by destruct (llm_invoke C _ w2) as [[generated|e] w3].
  - by rewrite <- !app_assoc.
Qed.

(** C5. The Respond stage always returns.  When both retrievals and the
    generation call return, the answer is the generator's output and
    [metadata.rag] is [{sources: metadata of the retrieved chunks,
    context_used: true}]; when any of the three raises, the answer is the
    fixed apology and [metadata.rag] is [{error: str(e)}].  The only
    edge out of the node leads to the end of the graph. *)
Theorem rag_responder_node_outcome st s :
  let q := query st in
  let r1 := get_relevant_documents C q (world s) in
  let r2 := get_relevant_documents C q r1.2 in
  (∃ st' s',
     rag_responder_node C st s = (Returned st', s')
     ∧ st' =
         match r1.1 with
         | Returned docs =>
             match r2.1 with
             | Returned docs' =>
                 let prompt :=
                   RAGChain.prompt_template (RAGChain.format_docs docs') q in
                 match (llm_invoke C prompt r2.2).1 with
                 | Returned generated => respond_success st generated docs
                 | Raised e => respond_failure st e
                 end
             | Raised e => respond_failure st e
             end
         | Raised e => respond_failure st e
         end)
  ∧ LangGraph.successor (_build_graph C) "rag_responder" st = Some LangGraph.END
  ∧ (∀ n, LangGraph.run_from (S n) (_build_graph C) "rag_responder" st s
          = rag_responder_node C st s).
Proof.
  cbv zeta. split.
  - rewrite rag_responder_node_eq. cbv zeta.
    destruct (get_relevant_documents C (query st) (world s)) as [[docs|e] w1];
      simpl; [|by eexists _, _].
    destruct (get_relevant_documents C (query st) w1) as [[docs'|e] w2];
      simpl; by eexists _, _.
  - split; [reflexivity|]. intros n.
    apply run_from_last;
      [discriminate | exact nodes_rag_responder | exact successor_rag_responder].
Qed.

Lemma escalation_answer_nonempty st s :
  ∃ st', escalation_node st s = (Returned st', s)
         ∧ query st' = query st ∧ category st' = category st
         ∧ answer st' ≠ EmptyString.
Proof.
  eexists. split; [reflexivity|]. simpl. split; [done|]. split; [done|].
  case_bool_decide; discriminate.
Qed.

(** C1, as the code has it.  For every query and every behaviour of the
    three collaborators, [invoke] returns a state holding the query and
    one of the four categories, and never raises.  The answer is not
    empty, except that an empty string returned by the generation model
    is passed on as the answer. *)
Theorem invoke_returns q s :
  ∃ st s',
    invoke C q s = (Returned st, s')
    ∧ query st = q
    ∧ category st ∈ valid_categories
    ∧ (answer st ≠ EmptyString
       ∨ answer st = EmptyString
         ∧ (category st = "products" ∨ category st = "returns")
         ∧ ∃ prompt w, LLMCall prompt ∈ calls s'
                       ∧ (llm_invoke C prompt w).1 = Returned EmptyString).
Proof.
  rewrite invoke_eq. unfold py_bind.
  destruct (classifier_node_returns (initial_state q) s)
    as (st1 & s1 & -> & Hq & _ & Hcat).
  simpl in Hq. case_bool_decide as Hroute.
  - rewrite !elem_of_cons, elem_of_nil in Hroute.
    rewrite rag_responder_node_eq. cbv zeta. rewrite Hq.
    destruct (get_relevant_documents C q (world s1)) as [[docs|e] w1]; simpl;
      [|eexists _, _; split; [reflexivity|]; repeat split; try done;
        left; discriminate].
    destruct (get_relevant_documents C q w1) as [[docs'|e] w2]; simpl;
      [|eexists _, _; split; [reflexivity|]; repeat split; try done;
        left; discriminate].
    destruct (llm_invoke C _ w2) as [[generated|e] w3] eqn:Hgen; simpl;
      [|eexists _, _; split; [reflexivity|]; repeat split; try done;
        left; discriminate].
    eexists _, _. split; [reflexivity|]. simpl.
    split; [done|]. split; [done|].
    destruct (decide (generated = EmptyString)) as [->|Hne]; [right|by left].
    split; [done|]. split; [tauto|].
    eexists _, w2. rewrite Hgen. split; [|done].
    rewrite elem_of_app, !elem_of_cons. tauto.
  - destruct (escalation_answer_nonempty st1 s1) as (st' & -> & Hq' & Hcat' & Hans).
    eexists _, _. split; [reflexivity|].
    rewrite Hq', Hcat'. split; [done|]. split; [done|]. by left.
Qed.

Lemma classifier_node_deterministic st s1 s2 :
  deterministic (classifier_llm_invoke C) →
  (classifier_node C st s1).1 = (classifier_node C st s2).1.
Proof.
  intros Hc. rewrite !classifier_node_eq. cbv zeta.
  specialize (Hc (classification_prompt (query st)) (world s1) (world s2)).
  destruct (classifier_llm_invoke C _ (world s1)) as [r1 w1].
  destruct (classifier_llm_invoke C _ (world s2)) as [r2 w2].
  simpl in *. subst r1. by destruct r2 as [[raw|parts]|e].
Qed.

Lemma rag_responder_node_deterministic st s1 s2 :
  deterministic (get_relevant_documents C) →
  deterministic (llm_invoke C) →
  (rag_responder_node C st s1).1 = (rag_responder_node C st s2).1.
Proof.
  intros Hr Hg. rewrite !rag_responder_node_eq. cbv zeta.
  pose proof (Hr (query st) (world s1) (world s2)) as H1.
  destruct (get_relevant_documents C (query st) (world s1)) as [r1 w1].
  destruct (get_relevant_documents C (query st) (world s2)) as [r1' w1'].
  simpl in *. subst r1'. destruct r1 as [docs|e]; [|done].
  pose proof (Hr (query st) w1 w1') as H2.
  destruct (get_relevant_documents C (query st) w1) as [r2 w2].
  destruct (get_relevant_documents C (query st) w1') as [r2' w2'].
  simpl in *. subst r2'. destruct r2 as [docs'|e]; [|done].
  simpl. by rewrite (Hg _ w2 w2').
Qed.

Lemma invoke_deterministic q s1 s2 :
  deterministic (classifier_llm_invoke C) →
  deterministic (get_relevant_documents C) →
  deterministic (llm_invoke C) →
  (invoke C q s1).1 = (invoke C q s2).1.
Proof.
  intros Hc Hr Hg. rewrite !invoke_eq. unfold py_bind.
  pose proof (classifier_node_deterministic (initial_state q) s1 s2 Hc) as Hcls.
  destruct (classifier_node C (initial_state q) s1) as [r1 s1'].
  destruct (classifier_node C (initial_state q) s2) as [r2 s2'].
  simpl in Hcls. subst r2. destruct r1 as [st|e]; [|done].
  case_bool_decide; [by apply rag_responder_node_deterministic|done].
Qed.

(** C9. With a classifier, a retriever and a generator whose results
    depend on their argument alone, running the workflow twice in a row
    on the same query returns twice, with the same category and the same
    answer (indeed the same state), whatever the calls did to the world
    in between. *)
Theorem invoke_idempotent q s :
  deterministic (classifier_llm_invoke C) →
  deterministic (get_relevant_documents C) →
  deterministic (llm_invoke C) →
  ∃ st1 s1 st2 s2,
    invoke C q s = (Returned st1, s1)
    ∧ invoke C q s1 = (Returned st2, s2)
    ∧ category st1 = category st2
    ∧ answer st1 = answer st2
    ∧ st1 = st2.
Proof.
  intros Hc Hr Hg.
  destruct (invoke_returns q s) as (st1 & s1 & Hrun1 & _).
  destruct (invoke_returns q s1) as (st2 & s2 & Hrun2 & _).
  pose proof (invoke_deterministic q s s1 Hc Hr Hg) as Hsame.
  rewrite Hrun1, Hrun2 in Hsame. simpl in Hsame.
  injection Hsame as ->. by eexists _, _, _, _.
Qed.

Lemma retrievals_app q l l' :
  retrievals q (l ++ l') = (retrievals q l + retrievals q l')%nat.
Proof. unfold retrievals. by rewrite filter_app, length_app. Qed.

Lemma retrievals_two q :
  retrievals q [RetrieverCall q; RetrieverCall q] = 2%nat.
Proof. unfold retrievals. by rewrite !filter_cons_True. Qed.

Lemma retrievals_two_then_llm q prompt :
  retrievals q [RetrieverCall q; RetrieverCall q; LLMCall prompt] = 2%nat.
Proof.
  unfold retrievals. rewrite !filter_cons_True by done.
  by rewrite filter_cons_False.
Qed.

Lemma respond_retrieves_twice_here st s docs1 w1 :
  let q := query st in
  get_relevant_documents C q (world s) = (Returned docs1, w1) →
  ∃ st' s',
    rag_responder_node C st s = (Returned st', s')
    ∧ retrievals q (calls s') = (retrievals q (calls s) + 2)%nat
    ∧ ∀ docs2 w2 generated w3,
        get_relevant_documents C q w1 = (Returned docs2, w2) →
        llm_invoke C (RAGChain.prompt_template (RAGChain.format_docs docs2) q) w2
          = (Returned generated, w3) →
        calls s' = (calls s ++ [RetrieverCall q; RetrieverCall q;
                                LLMCall (RAGChain.prompt_template
                                           (RAGChain.format_docs docs2) q)])%list
        ∧ answer st' = generated
        ∧ metadata st' !! "rag"
          = Some (PDict {[ "sources" := PList (map PDict (map doc_metadata docs1));
                           "context_used" := PBool true ]})
        ∧ (deterministic (get_relevant_documents C) → docs2 = docs1).
Proof.
  cbv zeta. intros Hfirst. rewrite rag_responder_node_eq. cbv zeta.
  rewrite Hfirst. simpl.
  destruct (get_relevant_documents C (query st) w1) as [[docs'|e] w'] eqn:Hsecond;
    simpl; eexists _, _; (split; [reflexivity|]); simpl.
  - split; [by rewrite retrievals_app, retrievals_two_then_llm|].
    intros docs2 w2 generated w3 [= -> ->] Hgen. rewrite Hgen. simpl.
    split; [done|]. split; [done|]. split; [by rewrite lookup_insert_eq|].
    intros Hdet. specialize (Hdet (query st) (world s) w1).
    rewrite Hfirst, Hsecond in Hdet. simpl in Hdet. by injection Hdet.
  - split; [by rewrite retrievals_app, retrievals_two|].
    intros docs2 w2 generated w3 [=].
Qed.

End WorkflowProperties.

(** C10. Whenever the Respond stage's own retrieval returns, the retriever
    is called a second time by the chain: the log gains exactly two
    retriever calls for the query.  The sources put in [metadata.rag] are
    those of the first call, the context in the generator's prompt is built
    from the second.  For a deterministic retriever the two agree; for the
    drifting retriever they do not: the sources name chunk 0 while the
    generator was shown chunk 1. *)
Theorem respond_retrieves_twice :
  (∀ (W : Type) (C : Collaborators W) (st : GraphState) (s : Sys W) docs1 w1,
     let q := query st in
     get_relevant_documents C q (world s) = (Returned docs1, w1) →
     ∃ st' s',
       RAGWorkflow.rag_responder_node C st s = (Returned st', s')
       ∧ retrievals q (calls s') = (retrievals q (calls s) + 2)%nat
       ∧ ∀ docs2 w2 generated w3,
           get_relevant_documents C q w1 = (Returned docs2, w2) →
           llm_invoke C (RAGChain.prompt_template (RAGChain.format_docs docs2) q) w2
             = (Returned generated, w3) →
           calls s' = (calls s ++ [RetrieverCall q; RetrieverCall q;
                                   LLMCall (RAGChain.prompt_template
                                              (RAGChain.format_docs docs2) q)])%list
           ∧ answer st' = generated
           ∧ metadata st' !! "rag"
             = Some (PDict {[ "sources" := PList (map PDict (map doc_metadata docs1));
                              "context_used" := PBool true ]})
           ∧ (deterministic (get_relevant_documents C) → docs2 = docs1))
  ∧ (let q := "What is the price of SmartWatch Pro X?" in
     let st := mkGraphState q "products" EmptyString {[ "classifier" := PStr "success" ]} in
     ∃ st' s',
       RAGWorkflow.rag_responder_node drifting_collaborators st (start 0%nat)
         = (Returned st', s')
       ∧ metadata st' !! "rag"
         = Some (PDict {[ "sources" :=
                            PList [PDict (doc_metadata (chunk "SmartWatch Pro X" 0))];
                          "context_used" := PBool true ]})
       ∧ calls s' = [RetrieverCall q; RetrieverCall q;
                     LLMCall (RAGChain.prompt_template "Wireless Earbuds Elite" q)]
       ∧ ¬ deterministic (get_relevant_documents drifting_collaborators)).
Proof.
  split.
  - intros W C st s docs1 w1. apply respond_retrieves_twice_here.
  - cbv zeta. eexists _, _. split; [reflexivity|].
    split; [reflexivity|]. split; [reflexivity|].
    intros Hdet. specialize (Hdet EmptyString 0%nat 1%nat). discriminate Hdet.
Qed.

(** * Properties of the request boundary *)

Section RoutesProperties.

Import Routes.
Context {W : Type}.
Implicit Types (workflow : option (string → Py W GraphState)) (s : Sys W).

Lemma parse_chat_request_missing (body : gmap string pyval) :
  body !! "query" = None → parse_chat_request body = None.
Proof. intros Hq. unfold parse_chat_request. by rewrite Hq. Qed.

Lemma parse_chat_request_empty (body : gmap string pyval) :
  body !! "query" = Some (PStr EmptyString) → parse_chat_request body = None.
Proof. intros Hq. unfold parse_chat_request. by rewrite Hq. Qed.

Lemma parse_chat_request_nonempty (body : gmap string pyval) q :
  q ≠ EmptyString →
  body !! "query" = Some (PStr q) →
  parse_chat_request body = Some {| req_query := q |}.
Proof.
  intros Hne Hq. unfold parse_chat_request. rewrite Hq.
  destruct q as [|c q]; [done|]. rewrite bool_decide_true; [done|]. simpl. lia.
Qed.

(** C8. A body whose [query] is missing or empty is answered with the
    client-error status 422 and nothing else happens: the workflow is not
    called and the system state is untouched.  A valid request gets 503
    while no workflow is installed, 500 with the exception's description
    when the workflow raises, and 200 with the workflow's result
    otherwise.  No other status is ever produced. *)
Theorem post_chat_outcomes workflow (body : gmap string pyval) s :
  match parse_chat_request body, workflow with
  | None, _ => post_chat workflow body s = (Returned RequestValidationError, s)
  | Some request, None =>
      post_chat workflow body s
      = (Returned (HTTPException 503%nat
                     "Chatbot service is not initialized. Please try again later."), s)
  | Some request, Some workflow_invoke =>
      match workflow_invoke (req_query request) s with
      | (Returned result, s') =>
          post_chat workflow body s
          = (Returned (OK {| resp_query := query result;
                             resp_answer := answer result;
                             resp_category := Some (category result);
                             resp_metadata := Some (metadata result) |}), s')
      | (Raised e, s') =>
          post_chat workflow body s
          = (Returned (HTTPException 500%nat ("Error processing query: " ++ e)), s')
      end
  end
  ∧ (body !! "query" = None ∨ body !! "query" = Some (PStr EmptyString) →
     parse_chat_request body = None)
  ∧ (∀ q, q ≠ EmptyString → body !! "query" = Some (PStr q) →
          parse_chat_request body = Some {| req_query := q |})
  ∧ (400 ≤ status_of RequestValidationError < 500)%nat
  ∧ ∃ r s', post_chat workflow body s = (Returned r, s')
            ∧ status_of r ∈ [200; 422; 503; 500]%nat.
Proof.
  assert (∀ r, (∃ b, r = OK b) ∨ r = RequestValidationError
               ∨ (∃ d, r = HTTPException 503%nat d) ∨ (∃ d, r = HTTPException 500%nat d) →
               status_of r ∈ [200; 422; 503; 500]%nat) as Hstatus.
  { intros r [[b ->]|[->|[[d ->]|[d ->]]]]; simpl; rewrite !elem_of_cons; tauto. }
  split; [|split; [|split; [|split]]].
  - unfold post_chat, chat, try_except, py_bind.
    destruct (parse_chat_request body) as [request|]; [|done].
    destruct workflow as [workflow_invoke|]; [|done].
    by destruct (workflow_invoke (req_query request) s) as [[result|e] s'].
  - intros [Hq|Hq];
      [by apply parse_chat_request_missing | by apply parse_chat_request_empty].
  - apply parse_chat_request_nonempty.
  - simpl. lia.
  - unfold post_chat, chat, try_except, py_bind.
    destruct (parse_chat_request body) as [request|];
      [|eexists _, _; split; [reflexivity|]; apply Hstatus; tauto].
    destruct workflow as [workflow_invoke|];
      [|eexists _, _; split; [reflexivity|]; apply Hstatus; eauto].
    destruct (workflow_invoke (req_query request) s) as [[result|e] s'];
      eexists _, _; (split; [reflexivity|]); apply Hstatus; eauto.
Qed.

End RoutesProperties.

(** * Runs on the test doubles *)

(** Against C1 as stated.  The classifier says [products], retrieval
    finds a chunk, and the generation model returns an empty string: the workflow returns that
    empty string as its answer. *)
Lemma invoke_empty_answer :
  ∃ st s',
    RAGWorkflow.invoke
      (stub_collaborators (Returned (ContentStr "products"))
                          (Returned [chunk "SmartWatch Pro X" 0])
                          (Returned EmptyString))
      "What is the price of SmartWatch Pro X?" (start tt)
    = (Returned st, s')
    ∧ category st = "products"
    ∧ answer st = EmptyString.
Proof. eexists _, _. split; [reflexivity|]. split; reflexivity. Qed.

(** Against C4 as stated.  An answer outside the four categories leaves [{"classifier":
    "success"}] behind, and a raising classifier leaves the string [error]
    under [classifier], with the description under the separate [error]
    key: in neither case does [classifier] hold a mapping with an error
    entry. *)
Lemma classifier_failure_not_under_classifier_key :
  (∃ st' s',
     RAGWorkflow.classifier_node
       (stub_collaborators (Returned (ContentStr "shipping")) (Returned []) (Returned "-"))
       (RAGWorkflow.initial_state "Where is my parcel?") (start tt)
     = (Returned st', s')
     ∧ category st' = "unknown"
     ∧ metadata st' = {[ "classifier" := PStr "success" ]}
     ∧ ¬ error_under_classifier_key (metadata st'))
  ∧ (∃ st' s',
       RAGWorkflow.classifier_node
         (stub_collaborators (Raised "model overloaded") (Returned []) (Returned "-"))
         (RAGWorkflow.initial_state "Where is my parcel?") (start tt)
       = (Returned st', s')
       ∧ category st' = "unknown"
       ∧ metadata st' !! "classifier" = Some (PStr "error")
       ∧ metadata st' !! "error" = Some (PStr "model overloaded")
       ∧ ¬ error_under_classifier_key (metadata st')).
Proof.
  split; eexists _, _; (split; [reflexivity|]); simpl.
  - split; [reflexivity|]. split; [reflexivity|].
    intros (d & reason & Hd & _). vm_compute in Hd. discriminate Hd.
  - split; [reflexivity|]. split; [reflexivity|]. split; [reflexivity|].
    intros (d & reason & Hd & _). vm_compute in Hd. discriminate Hd.
Qed.

(** C7 on a run.  Retrieval finds nothing: the generation model is still
    called, on the prompt whose context is empty. *)
Lemma empty_retrieval_still_generates_witness :
  RAGChain.chain_invoke
    (stub_collaborators (Returned (ContentStr "products")) (Returned [])
                        (Returned "I don't have that information."))
    "Do you sell drones?" (start tt)
  = (Returned "I don't have that information.",
     {| world := tt;
        calls := [RetrieverCall "Do you sell drones?";
                  LLMCall (RAGChain.prompt_template EmptyString "Do you sell drones?")] |}).
Proof.
  exact (proj1 (empty_retrieval_still_generates
                  (stub_collaborators (Returned (ContentStr "products")) (Returned [])
                                      (Returned "I don't have that information."))
                  "Do you sell drones?" (start tt) [] tt eq_refl)).
Defined.

(** C9 on a run.  The counting collaborators change the world at every
    call but answer from their argument alone: two runs in a row agree. *)
Lemma invoke_idempotent_witness :
  deterministic (classifier_llm_invoke counting_collaborators)
  ∧ deterministic (get_relevant_documents counting_collaborators)
  ∧ deterministic (llm_invoke counting_collaborators)
  ∧ ∃ st1 s1 st2 s2,
      RAGWorkflow.invoke counting_collaborators "Can I return my earbuds?" (start 0%nat)
      = (Returned st1, s1)
      ∧ RAGWorkflow.invoke counting_collaborators "Can I return my earbuds?" s1
        = (Returned st2, s2)
      ∧ category st1 = category st2
      ∧ answer st1 = answer st2
      ∧ st1 = st2.
Proof.
  assert (deterministic (classifier_llm_invoke counting_collaborators)) as Hc
    by (intros x w1 w2; reflexivity).
  assert (deterministic (get_relevant_documents counting_collaborators)) as Hr
    by (intros x w1 w2; reflexivity).
  assert (deterministic (llm_invoke counting_collaborators)) as Hg
    by (intros x w1 w2; reflexivity).
  split; [exact Hc|]. split; [exact Hr|]. split; [exact Hg|].
  exact (invoke_idempotent counting_collaborators "Can I return my earbuds?"
           (start 0%nat) Hc Hr Hg).
Defined.

(** Scenario 1: a product question is answered from retrieved context. *)
Example scenario_products :
  ∃ st s',
    RAGWorkflow.invoke
      (stub_collaborators (Returned (ContentStr "products"))
                          (Returned [chunk "SmartWatch Pro X" 0])
                          (Returned "It costs 15,999."))
      "What is the price of SmartWatch Pro X?" (start tt)
    = (Returned st, s')
    ∧ category st = "products"
    ∧ answer st = "It costs 15,999."
    ∧ metadata st !! "classifier" = Some (PStr "success")
    ∧ metadata st !! "rag"
      = Some (PDict {[ "sources" := PList [PDict (doc_metadata (chunk "SmartWatch Pro X" 0))];
                       "context_used" := PBool true ]}).
Proof. eexists _, _. split; [reflexivity|]. repeat split; reflexivity. Qed.

(** Scenario 2: an out-of-scope question is escalated with the apology. *)
Example scenario_unknown :
  ∃ st s',
    RAGWorkflow.invoke
      (stub_collaborators (Returned (ContentStr "unknown")) (Returned []) (Returned "-"))
      "What's the weather today?" (start tt)
    = (Returned st, s')
    ∧ category st = "unknown"
    ∧ answer st = RAGWorkflow.unknown_message
    ∧ metadata st !! "escalation" = Some (PBool true)
    ∧ calls s' = [ClassifierCall (RAGWorkflow.classification_prompt "What's the weather today?")].
Proof. eexists _, _. split; [reflexivity|]. repeat split; reflexivity. Qed.

(** Scenario 3: the classifier call raises and the query is escalated. *)
Example scenario_classifier_raises :
  ∃ st s',
    RAGWorkflow.invoke
      (stub_collaborators (Raised "model overloaded") (Returned []) (Returned "-"))
      "What is the price of SmartWatch Pro X?" (start tt)
    = (Returned st, s')
    ∧ category st = "unknown"
    ∧ answer st = RAGWorkflow.unknown_message
    ∧ metadata st = {[ "classifier" := PStr "error";
                       "error" := PStr "model overloaded";
                       "escalation" := PBool true ]}.
Proof. eexists _, _. split; [reflexivity|]. repeat split; reflexivity. Qed.

(** Normalisation on ASCII text: surrounding whitespace goes, case folds. *)
Example normalise_products :
  str_lower (str_strip ("  Products" ++ nl)) = "products".
Proof. reflexivity. Qed.

(** * Further properties of the workflow *)

Section WorkflowInvariants.

Import RAGWorkflow.
Context {W : Type} `{PyStr} (C : Collaborators W).
Implicit Types (st : GraphState) (s : Sys W) (q : string).

(** What Classify hands to Route. *)
Lemma classifier_node_cases st s :
  ∃ st1 s1,
    classifier_node C st s = (Returned st1, s1)
    ∧ query st1 = query st
    ∧ answer st1 = answer st
    ∧ category st1 ∈ valid_categories
    ∧ calls s1 = (calls s ++ [ClassifierCall (classification_prompt (query st))])%list
    ∧ (metadata st1 = {[ "classifier" := PStr "success" ]}
       ∨ ∃ e, category st1 = "unknown"
              ∧ metadata st1 = {[ "classifier" := PStr "error"; "error" := PStr e ]}).
Proof.
  rewrite classifier_node_eq. cbv zeta.
  destruct (classifier_llm_invoke C _ (world s)) as [[[raw|parts]|e] w']; simpl;
    eexists _, _; (split; [reflexivity|]); simpl;
    (split; [done|]); (split; [done|]).
  - split; [|by split; [|left]].
    case_bool_decide; [done|]. unfold valid_categories. rewrite !elem_of_cons. tauto.
  - split; [unfold valid_categories; rewrite !elem_of_cons; tauto|].
    split; [done|]. right. by eexists.
  - split; [unfold valid_categories; rewrite !elem_of_cons; tauto|].
    split; [done|]. right. by eexists.
Qed.

(** What Respond does, by the calls it made. *)
Lemma rag_responder_node_cases st s :
  let q := query st in
  ∃ st' s' rest,
    rag_responder_node C st s = (Returned st', s')
    ∧ calls s' = (calls s ++ rest)%list
    ∧ ((∃ e, st' = respond_failure st e)
         ∧ (rest = [RetrieverCall q] ∨ rest = [RetrieverCall q; RetrieverCall q]
            ∨ ∃ ctx, rest = [RetrieverCall q; RetrieverCall q;
                             LLMCall (RAGChain.prompt_template ctx q)])
       ∨ ∃ generated docs ctx w,
           st' = respond_success st generated docs
           ∧ rest = [RetrieverCall q; RetrieverCall q;
                     LLMCall (RAGChain.prompt_template ctx q)]
           ∧ (llm_invoke C (RAGChain.prompt_template ctx q) w).1 = Returned generated).
Proof.
  cbv zeta. rewrite rag_responder_node_eq. cbv zeta.
  destruct (get_relevant_documents C (query st) (world s)) as [[docs|e] w1]; simpl;
    [|eexists _, _, _; split; [reflexivity|]; split; [reflexivity|];
      left; split; [by eexists|tauto]].
  destruct (get_relevant_documents C (query st) w1) as [[docs'|e] w2]; simpl;
    [|eexists _, _, _; split; [reflexivity|]; split; [reflexivity|];
      left; split; [by eexists|tauto]].
  destruct (llm_invoke C _ w2) as [[generated|e] w3] eqn:Hgen; simpl;
    eexists _, _, _; (split; [reflexivity|]); (split; [reflexivity|]).
  - right. eexists _, _, _, w2. rewrite Hgen. done.
  - left. split; [by eexists|]. right. right. by eexists.
Qed.

Lemma invoke_cases q s :
  ∃ st1 s1,
    classifier_node C (initial_state q) s = (Returned st1, s1)
    ∧ invoke C q s =
        (if bool_decide (category st1 ∈ ["products"; "returns"])
         then rag_responder_node C st1 s1 else escalation_node st1 s1).
Proof.
  destruct (classifier_node_cases (initial_state q) s) as (st1 & s1 & Hcls & _).
  exists st1, s1. split; [done|].
  rewrite invoke_eq. unfold py_bind. rewrite Hcls. by case_bool_decide.
Qed.

(** X1. One run of the workflow calls the classification model exactly
    once, first, on the classification prompt of the query.  A run that
    escalates makes no further call: no retrieval, no generation.  A run
    that responds then calls the retriever once or twice and after that
    the generation model at most once, all for the same query; no call is
    ever repeated after a failure. *)
Theorem invoke_call_discipline q s :
  ∃ st s' rest,
    invoke C q s = (Returned st, s')
    ∧ calls s' = (calls s ++ (ClassifierCall (classification_prompt q) :: rest))%list
    ∧ (category st ∈ ["products"; "returns"]
         ∧ (rest = [RetrieverCall q] ∨ rest = [RetrieverCall q; RetrieverCall q]
            ∨ ∃ ctx, rest = [RetrieverCall q; RetrieverCall q;
                             LLMCall (RAGChain.prompt_template ctx q)])
       ∨ (category st ∉ ["products"; "returns"]) ∧ rest = []).
Proof.
  destruct (invoke_cases q s) as (st1 & s1 & Hcls & ->).
  destruct (classifier_node_cases (initial_state q) s)
    as (st1' & s1' & Hcls' & Hq & _ & _ & Hcalls & _).
  rewrite Hcls in Hcls'. injection Hcls' as <- <-. simpl in Hq, Hcalls.
  case_bool_decide as Hroute.
  - destruct (rag_responder_node_cases st1 s1) as (st' & s' & rest & -> & Hlog & Hrest).
    cbv zeta in Hrest. rewrite Hq in Hrest.
    exists st', s', rest. split; [done|].
    split; [by rewrite Hlog, Hcalls, <- app_assoc|].
    left. destruct Hrest as [[[e ->] Hrest]|(a & docs & ctx & w & -> & -> & _)].
    + by split.
    + split; [done|]. right. right. by eexists.
  - eexists _, _, []. split; [reflexivity|]. simpl. split; [done|]. by right.
Qed.

(** X2. The metadata of a finished run has a fixed shape.  [classifier] is
    [success], with no [error] key, or it is [error], with the description
    under [error] and the category [unknown].  A run that responded has a
    [rag] entry and no [escalation] entry; a run that escalated has
    [escalation] set to true and no [rag] entry; a failed classification
    always escalates.  No other key is ever present. *)
Theorem invoke_metadata_shape q s :
  ∃ st s',
    invoke C q s = (Returned st, s')
    ∧ (metadata st !! "classifier" = Some (PStr "success")
         ∧ metadata st !! "error" = None
       ∨ ∃ e, metadata st !! "classifier" = Some (PStr "error")
              ∧ metadata st !! "error" = Some (PStr e)
              ∧ category st = "unknown"
              ∧ metadata st !! "escalation" = Some (PBool true))
    ∧ (category st ∈ ["products"; "returns"]
         ∧ is_Some (metadata st !! "rag") ∧ metadata st !! "escalation" = None
       ∨ (category st ∉ ["products"; "returns"])
         ∧ metadata st !! "rag" = None
         ∧ metadata st !! "escalation" = Some (PBool true))
    ∧ ∀ k, k ∉ ["classifier"; "error"; "rag"; "escalation"] → metadata st !! k = None.
Proof.
  destruct (invoke_cases q s) as (st1 & s1 & Hcls & ->).
  destruct (classifier_node_cases (initial_state q) s)
    as (st1' & s1' & Hcls' & _ & _ & _ & _ & Hmeta).
  rewrite Hcls in Hcls'. injection Hcls' as <- <-.
  case_bool_decide as Hroute.
  - destruct (rag_responder_node_cases st1 s1) as (st' & s' & rest & -> & _ & Hst).
    exists st', s'. split; [done|].
    assert (category st' = category st1
            ∧ ∃ v, metadata st' = <[ "rag" := v ]> (metadata st1)) as [Hcat [v Hm]].
    { destruct Hst as [[[e ->] _]|(a & docs & ctx & w & -> & _)];
        (split; [done|]); by eexists. }
    rewrite Hcat, Hm.
    split; [|split].
    + destruct Hmeta as [->|(e & Hunk & ->)]; [left; by simplify_map_eq|].
      exfalso. rewrite Hunk in Hroute.
      rewrite !elem_of_cons, elem_of_nil in Hroute.
      destruct Hroute as [?|[?|[]]]; discriminate.
    + left. split; [done|]. split; [by simplify_map_eq|].
      destruct Hmeta as [->|(e & _ & ->)]; by simplify_map_eq.
    + intros k Hk. rewrite !not_elem_of_cons in Hk.
      destruct Hk as (? & ? & ? & ? & _).
      destruct Hmeta as [->|(e & _ & ->)]; by simplify_map_eq.
  - eexists _, _. split; [reflexivity|]. simpl. split; [|split].
    + destruct Hmeta as [->|(e & Hunk & ->)]; [left; by simplify_map_eq|].
      right. exists e. by simplify_map_eq.
    + right. split; [done|].
      destruct Hmeta as [->|(e & _ & ->)]; by simplify_map_eq.
    + intros k Hk. rewrite !not_elem_of_cons in Hk.
      destruct Hk as (? & ? & ? & ? & _).
      destruct Hmeta as [->|(e & _ & ->)]; by simplify_map_eq.
Qed.

End WorkflowInvariants.

Section WorkflowEndToEnd.

Import RAGWorkflow.
Context {W : Type} `{PyStr} (C : Collaborators W).
Implicit Types (st : GraphState) (s : Sys W) (q : string).

Lemma valid_categories_cases (c : string) :
  c ∈ valid_categories →
  c = "products" ∨ c = "returns" ∨ c = "general" ∨ c = "unknown".
Proof. unfold valid_categories. rewrite !elem_of_cons, elem_of_nil. tauto. Qed.

(** X3. The answer of a finished run follows from its category.  For
    [general] it is the support-information message and for [unknown] the
    apology, so both of these reach the Escalate stage.  For [products] and
    [returns] it is either the fixed fallback of the Respond stage or a text
    that the generation model returned. *)
Theorem invoke_answer_by_category q s :
  ∃ st s',
    invoke C q s = (Returned st, s')
    ∧ (category st = "general" ∧ answer st = general_message
       ∨ category st = "unknown" ∧ answer st = unknown_message
       ∨ (category st = "products" ∨ category st = "returns")
         ∧ (answer st = rag_fallback_answer
            ∨ ∃ prompt w, (llm_invoke C prompt w).1 = Returned (answer st))).
Proof.
  destruct (invoke_cases C q s) as (st1 & s1 & Hcls & ->).
  destruct (classifier_node_cases C (initial_state q) s)
    as (st1' & s1' & Hcls' & _ & _ & Hvalid & _).
  rewrite Hcls in Hcls'. injection Hcls' as <- <-.
  apply valid_categories_cases in Hvalid.
  case_bool_decide as Hroute.
  - rewrite !elem_of_cons, elem_of_nil in Hroute.
    destruct (rag_responder_node_cases C st1 s1) as (st' & s' & rest & -> & _ & Hst).
    exists st', s'. split; [done|]. right. right.
    destruct Hst as [[[e ->] _]|(a & docs & ctx & w & -> & _ & Hgen)]; simpl.
    + split; [tauto|]. by left.
    + split; [tauto|]. right. by eexists _, _.
  - rewrite !elem_of_cons, elem_of_nil in Hroute.
    eexists _, _. split; [reflexivity|]. simpl.
    destruct Hvalid as [Hc|[Hc|[Hc|Hc]]]; [tauto|tauto| |]; rewrite Hc.
    + by left.
    + right. by left.
Qed.

(** X4. Each stage writes its own fields only.  Respond and Escalate keep
    the query and the category and touch no metadata key but [rag],
    respectively [escalation].  Classify keeps the query and the answer and
    replaces the metadata as a whole: whatever was there before is gone,
    only [classifier] and [error] can be present afterwards. *)
Theorem stages_write_their_own_fields st s :
  (∃ st' s',
     rag_responder_node C st s = (Returned st', s')
     ∧ query st' = query st ∧ category st' = category st
     ∧ ∀ k, k ≠ "rag" → metadata st' !! k = metadata st !! k)
  ∧ (∃ st',
       escalation_node st s = (Returned st', s)
       ∧ query st' = query st ∧ category st' = category st
       ∧ ∀ k, k ≠ "escalation" → metadata st' !! k = metadata st !! k)
  ∧ (∃ st' s',
       classifier_node C st s = (Returned st', s')
       ∧ query st' = query st ∧ answer st' = answer st
       ∧ ∀ k, k ≠ "classifier" → k ≠ "error" → metadata st' !! k = None).
Proof.
  split; [|split].
  - destruct (rag_responder_node_cases C st s) as (st' & s' & rest & -> & _ & Hst).
    exists st', s'. split; [done|].
    destruct Hst as [[[e ->] _]|(a & docs & ctx & w & -> & _)]; simpl;
      (split; [done|]); (split; [done|]); intros k Hk; by rewrite lookup_insert_ne.
  - eexists. split; [reflexivity|]. simpl. split; [done|]. split; [done|].
    intros k Hk. by rewrite lookup_insert_ne.
  - destruct (classifier_node_cases C st s)
      as (st' & s' & -> & Hq & Ha & _ & _ & Hmeta).
    exists st', s'. split; [done|]. split; [done|]. split; [done|].
    intros k Hk1 Hk2. destruct Hmeta as [->|(e & _ & ->)]; by simplify_map_eq.
Qed.

Lemma invoke_total q s :
  ∃ st s',
    invoke C q s = (Returned st, s')
    ∧ query st = q
    ∧ category st ∈ valid_categories
    ∧ is_Some (metadata st !! "classifier").
Proof.
  destruct (invoke_cases C q s) as (st1 & s1 & Hcls & ->).
  destruct (classifier_node_cases C (initial_state q) s)
    as (st1' & s1' & Hcls' & Hq & _ & Hvalid & _ & Hmeta).
  rewrite Hcls in Hcls'. injection Hcls' as <- <-. simpl in Hq.
  assert (is_Some (metadata st1 !! "classifier")) as Hkey.
  { destruct Hmeta as [->|(e & _ & ->)]; by simplify_map_eq. }
  case_bool_decide.
  - destruct (rag_responder_node_cases C st1 s1) as (st' & s' & rest & -> & _ & Hst).
    exists st', s'. split; [done|].
    destruct Hst as [[[e ->] _]|(a & docs & ctx & w & -> & _)]; simpl;
      (split; [done|]); (split; [done|]); by rewrite lookup_insert_ne.
  - eexists _, _. split; [reflexivity|]. simpl.
    split; [done|]. split; [done|]. by rewrite lookup_insert_ne.
Qed.

(** X5. With the workflow installed behind [POST /chat], the only
    statuses left are 422 and 200: a body that validates is always answered
    with 200, echoing the query, with one of the four categories and with
    metadata holding a [classifier] entry.  The 503 and 500 answers of the
    handler cannot occur, whatever the collaborators do. *)
Theorem chat_with_workflow_installed (body : gmap string pyval) s :
  match Routes.parse_chat_request body with
  | None =>
      Routes.post_chat (Some (invoke C)) body s
      = (Returned Routes.RequestValidationError, s)
  | Some request =>
      ∃ resp s',
        Routes.post_chat (Some (invoke C)) body s = (Returned (Routes.OK resp), s')
        ∧ Routes.resp_query resp = Routes.req_query request
        ∧ (∃ c, Routes.resp_category resp = Some c ∧ c ∈ valid_categories)
        ∧ (∃ m, Routes.resp_metadata resp = Some m ∧ is_Some (m !! "classifier"))
  end.
Proof.
  unfold Routes.post_chat.
  destruct (Routes.parse_chat_request body) as [request|]; [|done].
  unfold Routes.chat, try_except, py_bind.
  destruct (invoke_total (Routes.req_query request) s)
    as (st & s' & -> & Hq & Hcat & Hkey).
  eexists _, _. split; [reflexivity|]. simpl.
  split; [done|]. split; by eexists.
Qed.

(** X6. The chat handler answers 503 exactly when the health endpoint
    reports [workflow_initialized] as false, for every request and every
    installed workflow object. *)
Theorem chat_503_iff_health_uninitialised
    (workflow : option (string → Py W GraphState)) (request : Routes.ChatRequest) s :
  (∃ detail, (Routes.chat workflow request s).1
             = Returned (Routes.HTTPException 503%nat detail))
  ↔ Main.health_check workflow !! "workflow_initialized" = Some (PBool false).
Proof.
  destruct workflow as [workflow_invoke|]; split.
  - intros [detail Hchat]. exfalso.
    unfold Routes.chat, try_except, py_bind in Hchat.
    destruct (workflow_invoke (Routes.req_query request) s) as [[result|e] s'];
      simpl in Hchat; discriminate Hchat.
  - intros Hhealth. vm_compute in Hhealth. discriminate Hhealth.
  - intros _. reflexivity.
  - intros _. by eexists.
Qed.

End WorkflowEndToEnd.

(** * Further properties of the RAG chain and of the prompts *)

Section ChainInvariants.

Import RAGChain.
Context {W : Type} (C : Collaborators W).
Implicit Types (s : Sys W) (q : string) (docs : list Document).

Lemma string_length_app (a b : string) :
  String.length (a ++ b) = (String.length a + String.length b)%nat.
Proof. induction a as [|c a IH]; simpl; [done|]. by rewrite IH. Qed.

Lemma format_docs_step d docs :
  docs ≠ [] →
  format_docs (d :: docs) = page_content d ++ (nl ++ nl) ++ format_docs docs.
Proof. destruct docs; [done|]. reflexivity. Qed.

(** X7. The context has room for every chunk text plus the two-character
    separator between neighbours: its length is the total length of the
    texts plus twice the number of gaps.  It is empty only when there is no
    chunk or a single chunk with empty text. *)
Theorem format_docs_length docs :
  String.length (format_docs docs)
  = (total_length docs + 2 * (length docs - 1))%nat
  ∧ (format_docs docs = EmptyString
     ↔ docs = [] ∨ ∃ d, docs = [d] ∧ page_content d = EmptyString).
Proof.
  split.
  - induction docs as [|d docs IH]; [done|].
    destruct docs as [|d' docs]; [rewrite format_docs_one; simpl; lia|].
    rewrite format_docs_step by done.
    rewrite !string_length_app, IH. simpl. lia.
  - split.
    + destruct docs as [|d [|d' docs]]; [by left| |].
      * rewrite format_docs_one. intros Hd. right. by exists d.
      * intros Hd. exfalso. rewrite format_docs_step in Hd by done.
        apply (f_equal String.length) in Hd.
        rewrite !string_length_app in Hd. simpl in Hd. lia.
    + intros [->|(d & -> & Hd)]; [done|]. by rewrite format_docs_one.
Qed.

(** X8. The two operations of the chain agree when the retriever and the
    generation model are deterministic: [get_context_and_answer] returns
    exactly the answer that [invoke] returns for the same query, and raises
    exactly when [invoke] raises, with the same description, whatever
    happened to the world in between. *)
Theorem get_context_and_answer_agrees_with_invoke q s1 s2 :
  deterministic (get_relevant_documents C) →
  deterministic (llm_invoke C) →
  outcome_map r_answer (get_context_and_answer C q s1).1 = (invoke C q s2).1.
Proof.
  intros Hr Hg. unfold invoke.
  rewrite get_context_and_answer_eq, (chain_invoke_eq C q s2). cbv zeta.
  pose proof (Hr q (world s1) (world s2)) as H12.
  destruct (get_relevant_documents C q (world s1)) as [r1 w1].
  destruct (get_relevant_documents C q (world s2)) as [r2 w2] eqn:Hsecond.
  simpl in H12 |- *. subst r2. destruct r1 as [docs|e]; simpl; [|done].
  rewrite chain_invoke_eq. cbv zeta. simpl.
  pose proof (Hr q w1 (world s2)) as H32. rewrite Hsecond in H32. simpl in H32.
  destruct (get_relevant_documents C q w1) as [r3 w3]. simpl in H32 |- *. subst r3.
  simpl.
  pose proof (Hg (prompt_template (format_docs docs) q) w3 w2) as Hgen.
  destruct (llm_invoke C _ w3) as [g3 w4]. destruct (llm_invoke C _ w2) as [g2 w5].
  simpl in Hgen |- *. subst g3. by destruct g2.
Qed.

End ChainInvariants.

Section PromptProperties.

Implicit Types (p x y sep : string) (xs : list string).

Lemma is_prefix_refl_app p y : is_prefix p (p ++ y) = true.
Proof.
  induction p as [|c p IH]; simpl; [done|].
  by rewrite bool_decide_true, IH.
Qed.

Lemma is_prefix_app_l p x y : is_prefix p x = true → is_prefix p (x ++ y) = true.
Proof.
  revert x. induction p as [|c p IH]; intros [|c' x]; simpl; try done.
  intros [Hc Hp]%andb_prop. rewrite Hc. simpl. by apply IH.
Qed.

Lemma is_substring_cons p c x :
  is_substring p (String c x) = is_prefix p (String c x) || is_substring p x.
Proof. reflexivity. Qed.

Lemma is_substring_prefix p x : is_prefix p x = true → is_substring p x = true.
Proof. intros Hp. destruct x; simpl; by rewrite Hp. Qed.

Lemma is_substring_here p y : is_substring p (p ++ y) = true.
Proof. apply is_substring_prefix, is_prefix_refl_app. Qed.

Lemma is_substring_refl p : is_substring p p = true.
Proof.
  apply is_substring_prefix. induction p as [|c p IH]; simpl; [done|].
  by rewrite bool_decide_true, IH.
Qed.

Lemma is_substring_app_l p x y :
  is_substring p x = true → is_substring p (x ++ y) = true.
Proof.
  induction x as [|c x IH].
  - simpl. rewrite orb_false_r. intros Hp.
    apply is_substring_prefix. by destruct p.
  - rewrite is_substring_cons. intros [Hp|Hp]%orb_prop.
    + by apply is_substring_prefix, is_prefix_app_l.
    + change (String c x ++ y) with (String c (x ++ y)).
      rewrite is_substring_cons, IH by done. by rewrite orb_true_r.
Qed.

Lemma is_substring_app_r p x y :
  is_substring p y = true → is_substring p (x ++ y) = true.
Proof.
  intros Hp. induction x as [|c x IH]; [done|].
  change (String c x ++ y) with (String c (x ++ y)).
  rewrite is_substring_cons, IH. by rewrite orb_true_r.
Qed.

Lemma is_substring_str_join p sep xs x :
  x ∈ xs → is_substring p x = true → is_substring p (str_join sep xs) = true.
Proof.
  intros Hin Hp. induction xs as [|x' xs IH]; [by apply elem_of_nil in Hin|].
  apply elem_of_cons in Hin. destruct xs as [|x'' xs].
  - destruct Hin as [->|Hin]; [done|by apply elem_of_nil in Hin].
  - change (str_join sep (x' :: x'' :: xs))
      with (x' ++ sep ++ str_join sep (x'' :: xs)).
    destruct Hin as [->|Hin]; [by apply is_substring_app_l|].
    apply is_substring_app_r, is_substring_app_r. by apply IH.
Qed.

(** X9. Both prompts carry the caller's text verbatim: the classification
    prompt contains the query, and the answer prompt contains the context
    and the question, whatever characters they hold.  The classification
    prompt also offers, in quotes, every category that the validation
    accepts. *)
Theorem prompts_embed_their_inputs (q ctx : string) :
  is_substring q (RAGWorkflow.classification_prompt q) = true
  ∧ is_substring ctx (RAGChain.prompt_template ctx q) = true
  ∧ is_substring q (RAGChain.prompt_template ctx q) = true
  ∧ ∀ c, c ∈ RAGWorkflow.valid_categories →
         is_substring (dquote ++ c ++ dquote) (RAGWorkflow.classification_prompt q) = true.
Proof.
  split; [|split; [|split]].
  - apply (is_substring_str_join _ _ _ ("Query: " ++ q)).
    + rewrite !elem_of_cons. tauto.
    + apply is_substring_app_r, is_substring_refl.
  - apply (is_substring_str_join _ _ _ ctx).
    + rewrite !elem_of_cons. tauto.
    + apply is_substring_refl.
  - apply (is_substring_str_join _ _ _ ("Question: " ++ q)).
    + rewrite !elem_of_cons. tauto.
    + apply is_substring_app_r, is_substring_refl.
  - intros c Hc. unfold RAGWorkflow.valid_categories in Hc.
    rewrite !elem_of_cons, elem_of_nil in Hc.
    destruct Hc as [->|[->|[->|[->|[]]]]]; by vm_compute.
Qed.

End PromptProperties.

(** * Properties of the document loader *)

Section LoaderProperties.

Import DocumentLoader.
Context {W Embeddings Chroma ChatModel : Type}.
Context (settings : Config.Settings) (P : Platform W Embeddings Chroma ChatModel).
Implicit Types (self : Loader) (s : Sys W) (text : string).

Lemma load_document_eq file_path s :
  load_document P file_path s =
    let found := path_exists P file_path (world s) in
    match found.1 with
    | Returned true =>
        let r := read_text P file_path found.2 in
        (r.1, {| world := r.2; calls := calls s |})
    | Returned false =>
        (Raised ("Document not found: " ++ file_path),
         {| world := found.2; calls := calls s |})
    | Raised e => (Raised e, {| world := found.2; calls := calls s |})
    end.
Proof.
  cbv zeta. unfold load_document, py_bind, probe.
  destruct (path_exists P file_path (world s)) as [[[|]|e] w1]; simpl; [|done..].
  by destruct (read_text P file_path w1).
Qed.

Lemma split_documents_lookup self text i :
  split_documents settings self text !! i
  = (λ chunk, {| page_content := chunk;
                 doc_metadata :=
                   {[ "source" := PStr (Config.knowledge_base_path settings);
                      "chunk_id" := PInt (Z.of_nat i) ]} |})
      <$> text_splitter self text !! i.
Proof. unfold split_documents. by rewrite list_lookup_imap. Qed.

(** X10. The documents made from a text are its chunks, in the splitter's
    order and one for one; the document at position [i] carries exactly the
    metadata [{"source": knowledge_base_path, "chunk_id": i}], so chunk ids
    count up from 0 and no two documents share one, even when their texts
    are equal. *)
Theorem split_documents_positions self text :
  let documents := split_documents settings self text in
  length documents = length (text_splitter self text)
  ∧ page_content <$> documents = text_splitter self text
  ∧ (∀ i d, documents !! i = Some d →
       doc_metadata d
       = {[ "source" := PStr (Config.knowledge_base_path settings);
            "chunk_id" := PInt (Z.of_nat i) ]})
  ∧ NoDup ((λ d, doc_metadata d !! "chunk_id") <$> documents).
Proof.
  cbv zeta. split; [|split; [|split]].
  - unfold split_documents. by rewrite length_imap.
  - apply list_eq. intros i.
    rewrite list_lookup_fmap, split_documents_lookup.
    by destruct (text_splitter self text !! i).
  - intros i d. rewrite split_documents_lookup.
    destruct (text_splitter self text !! i); simpl; [|done]. by intros [= <-].
  - apply NoDup_alt. intros i j v.
    rewrite !list_lookup_fmap, !split_documents_lookup.
    destruct (text_splitter self text !! i); simpl; [|done].
    destruct (text_splitter self text !! j); simpl; [|done].
    rewrite !lookup_insert_ne by done. rewrite !lookup_singleton_eq.
    intros Hi Hj. rewrite <- Hj in Hi.
    assert (Z.of_nat i = Z.of_nat j) as Hij by congruence. lia.
Qed.

Lemma load_and_split_missing_file_at self path s w' :
  path_exists P path (world s) = (Returned false, w') →
  load_and_split settings P self (Some path) s
  = (Raised ("Document not found: " ++ path), {| world := w'; calls := calls s |}).
Proof.
  intros Hmissing. unfold load_and_split, py_bind.
  rewrite load_document_eq. cbv zeta. simpl. by rewrite Hmissing.
Qed.

(** X11. Loading a file that does not exist raises [FileNotFoundError]
    with [Document not found: <path>], where the path is the argument or,
    without an argument, the configured knowledge base; nothing is read. *)
Theorem load_and_split_missing_file self (file_path : option string) s w' :
  let path := default (Config.knowledge_base_path settings) file_path in
  path_exists P path (world s) = (Returned false, w') →
  load_and_split settings P self file_path s
  = (Raised ("Document not found: " ++ path), {| world := w'; calls := calls s |}).
Proof.
  cbv zeta. intros Hmissing. unfold load_and_split, py_bind.
  rewrite load_document_eq. cbv zeta. by rewrite Hmissing.
Qed.


End LoaderProperties.

(** * Properties of the vector store and of start-up *)

Section StartupProperties.

Context {W Embeddings Chroma ChatModel : Type}.
Context (settings : Config.Settings) (P : Platform W Embeddings Chroma ChatModel).
Implicit Types (self : VectorStore.Store (Embeddings:=Embeddings) (Chroma:=Chroma)).
Implicit Types (s : Sys W) (k : option Z).

Lemma py_bind_returned {A B : Type} (m : Py W A) (k : A → Py W B) s a s' :
  m s = (Returned a, s') → py_bind m k s = k a s'.
Proof. intros Hm. unfold py_bind. by rewrite Hm. Qed.

Lemma py_bind_raised {A B : Type} (m : Py W A) (k : A → Py W B) s e s' :
  m s = (Raised e, s') → py_bind m k s = (Raised e, s').
Proof. intros Hm. unfold py_bind. by rewrite Hm. Qed.

Lemma probe_returned {A : Type} (f : W → outcome A * W) s a w' :
  f (world s) = (Returned a, w') →
  probe f s = (Returned a, {| world := w'; calls := calls s |}).
Proof. intros Hf. unfold probe. by rewrite Hf. Qed.

Lemma loader_init_returned s split_text w1 :
  make_text_splitter P (Config.chunk_size settings) (Config.chunk_overlap settings)
    (world s) = (Returned split_text, w1) →
  DocumentLoader.init settings P s
  = (Returned {| DocumentLoader.chunk_size := Config.chunk_size settings;
                 DocumentLoader.chunk_overlap := Config.chunk_overlap settings;
                 DocumentLoader.text_splitter := split_text |},
     {| world := w1; calls := calls s |}).
Proof.
  intros Hsplit. unfold DocumentLoader.init.
  by erewrite py_bind_returned by (by apply probe_returned).
Qed.

(** X13. Once [create_vectorstore] or [load_vectorstore] has returned,
    [get_retriever] returns a similarity retriever over that very store,
    with [k] the argument or else the configured top-k (an explicit 0 is
    kept) and [fetch_k] twice [k]; it records the retriever on the object
    and makes no external call.  [similarity_search] then searches the same
    store with the same default. *)
Theorem get_retriever_after_setup self documents s db self' s' k s2 :
  VectorStore.create_vectorstore P self documents s = (Returned (db, self'), s')
  ∨ VectorStore.load_vectorstore P self s = (Returned (db, self'), s') →
  let k' := default (Config.top_k_results settings) k in
  let r := {| search_type := "similarity"; search_k := k';
              search_fetch_k := (k' * 2)%Z; retriever_vectorstore := db |} in
  (∃ self'',
     VectorStore.get_retriever settings self' k s2 = (Returned (r, self''), s2)
     ∧ VectorStore.retriever self'' = Some r
     ∧ VectorStore.vectorstore self'' = Some db)
  ∧ ∀ q, VectorStore.similarity_search settings P self' q k s2
         = probe (chroma_similarity_search P db q k') s2.
Proof.
  cbv zeta. intros Hsetup.
  assert (VectorStore.vectorstore self' = Some db) as Hdb.
  { destruct Hsetup as [Hrun|Hrun];
      unfold VectorStore.create_vectorstore, VectorStore.load_vectorstore,
        py_bind, probe in Hrun.
    - destruct (chroma_from_documents P _ _ _ _ _) as [[db'|e] w1]; simpl in Hrun;
        [|done]. by injection Hrun as <- <- <-.
    - destruct (chroma_open P _ _ _ _) as [[db'|e] w1]; simpl in Hrun;
        [|done]. by injection Hrun as <- <- <-. }
  split.
  - unfold VectorStore.get_retriever. rewrite Hdb. by eexists.
  - intros q. unfold VectorStore.similarity_search. by rewrite Hdb.
Qed.

(** X14. A store object fresh from its constructor is refused everywhere:
    [get_retriever] and [similarity_search] raise their [ValueError]
    without any external call, and constructing a [RAGChain] over it raises
    the same error before any chat client is built. *)
Theorem uninitialised_store_is_refused s self s' k (q : string) s2 :
  VectorStore.init settings P s = (Returned self, s') →
  VectorStore.get_retriever settings self k s2 = (Raised not_initialized, s2)
  ∧ VectorStore.similarity_search settings P self q k s2
    = (Raised "Vector store not initialized", s2)
  ∧ Main.chain_init settings P self s2 = (Raised not_initialized, s2).
Proof.
  intros Hinit.
  assert (VectorStore.vectorstore self = None) as Hnone.
  { unfold VectorStore.init, py_bind, probe in Hinit.
    destruct (make_embeddings P _ _) as [[emb|e] w1]; simpl in Hinit; [|done].
    by injection Hinit as <- <-. }
  unfold Main.chain_init, py_bind, VectorStore.get_retriever,
    VectorStore.similarity_search.
  by rewrite Hnone.
Qed.

(** X15. Start-up checks the API key before anything else: with an empty
    key or the placeholder key it raises [GOOGLE_API_KEY not configured]
    and has touched nothing, neither the file system nor any client. *)
Theorem lifespan_requires_api_key s :
  Config.google_api_key settings = EmptyString
  ∨ Config.google_api_key settings = Main.placeholder_key →
  Main.lifespan settings P s = (Raised "GOOGLE_API_KEY not configured", s).
Proof.
  intros Hkey. unfold Main.lifespan.
  destruct Hkey as [Hkey|Hkey]; rewrite Hkey; reflexivity.
Qed.

(** X16. Start-up reads the knowledge base before it looks at the index
    directory: when the key is set, the splitter has been built and the
    knowledge-base file does not exist, start-up raises
    [Document not found: <path>] right there, whether or not an index
    already exists, and no embedding, store or chat client is ever built. *)
Theorem lifespan_requires_knowledge_base s split_text w1 w2 :
  Config.google_api_key settings ≠ EmptyString →
  Config.google_api_key settings ≠ Main.placeholder_key →
  make_text_splitter P (Config.chunk_size settings) (Config.chunk_overlap settings)
    (world s) = (Returned split_text, w1) →
  path_exists P (Config.knowledge_base_path settings) w1 = (Returned false, w2) →
  Main.lifespan settings P s
  = (Raised ("Document not found: " ++ Config.knowledge_base_path settings),
     {| world := w2; calls := calls s |}).
Proof.
  intros Hkey1 Hkey2 Hsplit Hmissing. unfold Main.lifespan.
  rewrite !bool_decide_false by done. simpl.
  erewrite py_bind_returned by (by apply loader_init_returned).
  by erewrite py_bind_raised by (by apply load_and_split_missing_file_at).
Qed.


Ltac step_call_in H :=
  match type of H with
  | context [match ?X with _ => _ end] =>
      lazymatch type of X with
      | (outcome _ * W)%type =>
          destruct X as [[?|?] ?]; simpl in H; try discriminate H
      end
  end.

Ltac unfold_startup :=
  unfold Main.lifespan, DocumentLoader.init, DocumentLoader.load_and_split,
    DocumentLoader.load_document, VectorStore.init, VectorStore.load_vectorstore,
    VectorStore.create_vectorstore, Main.chain_init, Main.workflow_init,
    VectorStore.get_retriever, py_bind, probe, py_ret, py_raise in *.



(** X19. A start-up that succeeds had a usable API key and installs a
    workflow whose chain retrieves by similarity from the store that was
    opened or built, with [k] the configured top-k and [fetch_k] twice
    that; the store object remembers that retriever. *)
Theorem lifespan_installs_configured_retriever s wf s' :
  Main.lifespan settings P s = (Returned wf, s') →
  let chain := Main.rag_chain wf in
  let r := Main.chain_retriever chain in
  Config.google_api_key settings ≠ EmptyString
  ∧ Config.google_api_key settings ≠ Main.placeholder_key
  ∧ search_type r = "similarity"
  ∧ search_k r = Config.top_k_results settings
  ∧ search_fetch_k r = (Config.top_k_results settings * 2)%Z
  ∧ VectorStore.vectorstore (Main.chain_vectorstore chain)
    = Some (retriever_vectorstore r)
  ∧ VectorStore.retriever (Main.chain_vectorstore chain) = Some r.
Proof.
  cbv zeta. intros Hrun. unfold Main.lifespan in Hrun.
  destruct (decide (Config.google_api_key settings = EmptyString)) as [Hk1|Hk1];
    [rewrite bool_decide_true in Hrun by done; discriminate Hrun|].
  destruct (decide (Config.google_api_key settings = Main.placeholder_key)) as [Hk2|Hk2];
    [rewrite (bool_decide_true (_ = Main.placeholder_key)) in Hrun by done;
     rewrite orb_true_r in Hrun; discriminate Hrun|].
  split; [done|]. split; [done|].
  rewrite !bool_decide_false in Hrun by done. simpl in Hrun.
  unfold_startup. simpl in Hrun.
  repeat step_call_in Hrun.
  all: repeat match type of Hrun with
         | context [if ?b then _ else _] => is_var b; destruct b; simpl in Hrun
         | context [if negb ?b then _ else _] => is_var b; destruct b; simpl in Hrun
         | _ => step_call_in Hrun
         end.
  all: repeat step_call_in Hrun.
  all: try discriminate Hrun.
  all: injection Hrun as Hwf _; subst wf; done.
Qed.

End StartupProperties.

(** * Further runs on the test doubles *)

(** X8 on a run: the counting collaborators are deterministic, and the
    answer with sources is the plain answer. *)
Lemma get_context_and_answer_agrees_with_invoke_witness :
  outcome_map RAGChain.r_answer
    (RAGChain.get_context_and_answer counting_collaborators "Can I return my earbuds?"
       (start 0%nat)).1
  = (RAGChain.invoke counting_collaborators "Can I return my earbuds?" (start 5%nat)).1.
Proof.
  apply (get_context_and_answer_agrees_with_invoke counting_collaborators);
    intros x w1 w2; reflexivity.
Defined.

(** X11 on a run: no file, no argument. *)
Lemma load_and_split_missing_file_witness :
  DocumentLoader.load_and_split demo_settings (memory_platform ∅ ∅) demo_loader None
    (start 0%nat)
  = (Raised "Document not found: ./product_info.txt",
     {| world := 1%nat; calls := [] |}).
Proof.
  exact (load_and_split_missing_file demo_settings (memory_platform ∅ ∅) demo_loader
           None (start 0%nat) 1%nat eq_refl).
Defined.


(** X13 on a run: a store built from two chunks, then asked for a
    retriever without [k]. *)
Lemma get_retriever_after_setup_witness :
  let P := memory_platform demo_files ∅ in
  let documents := [chunk "SmartWatch Pro X" 0; chunk "Wireless Earbuds Elite" 1] in
  let built := VectorStore.mkStore "./chroma_db" "product_knowledge_base" tt
                 (Some documents) None in
  let r := mkRetriever "similarity" 3 6 documents in
  (∃ self'',
     VectorStore.get_retriever demo_settings built None (start 1%nat)
     = (Returned (r, self''), start 1%nat)
     ∧ VectorStore.retriever self'' = Some r
     ∧ VectorStore.vectorstore self'' = Some documents)
  ∧ ∀ q, VectorStore.similarity_search demo_settings P built q None (start 1%nat)
         = probe (chroma_similarity_search P documents q 3) (start 1%nat).
Proof.
  cbv zeta.
  exact (get_retriever_after_setup demo_settings (memory_platform demo_files ∅)
           (VectorStore.mkStore "./chroma_db" "product_knowledge_base" tt None None)
           [chunk "SmartWatch Pro X" 0; chunk "Wireless Earbuds Elite" 1]
           (start 0%nat) _ _ _ None (start 1%nat) (or_introl eq_refl)).
Defined.

(** X14 on a run: the object straight from its constructor. *)
Lemma uninitialised_store_is_refused_witness :
  let P := memory_platform demo_files ∅ in
  let self := VectorStore.mkStore "./chroma_db" "product_knowledge_base" tt None None in
  VectorStore.get_retriever demo_settings self (Some 5%Z) (start 1%nat)
  = (Raised not_initialized, start 1%nat)
  ∧ VectorStore.similarity_search demo_settings P self "price" (Some 5%Z) (start 1%nat)
    = (Raised "Vector store not initialized", start 1%nat)
  ∧ Main.chain_init demo_settings P self (start 1%nat)
    = (Raised not_initialized, start 1%nat).
Proof.
  cbv zeta.
  exact (uninitialised_store_is_refused demo_settings (memory_platform demo_files ∅)
           (start 0%nat) _ _ (Some 5%Z) "price" (start 1%nat) eq_refl).
Defined.

(** X15 on a run: the key was never set. *)
Lemma lifespan_requires_api_key_witness :
  Main.lifespan unset_settings (memory_platform demo_files demo_dirs) (start 0%nat)
  = (Raised "GOOGLE_API_KEY not configured", start 0%nat).
Proof.
  exact (lifespan_requires_api_key unset_settings (memory_platform demo_files demo_dirs)
           (start 0%nat) (or_introl eq_refl)).
Defined.

(** X16 on a run: an index is there, the knowledge base is not. *)
Lemma lifespan_requires_knowledge_base_witness :
  Main.lifespan demo_settings (memory_platform ∅ demo_dirs) (start 0%nat)
  = (Raised "Document not found: ./product_info.txt",
     {| world := 2%nat; calls := [] |}).
Proof.
  apply (lifespan_requires_knowledge_base demo_settings (memory_platform ∅ demo_dirs)
           (start 0%nat) split_lines 1%nat 2%nat);
    [discriminate | discriminate | reflexivity | reflexivity].
Defined.



(** X19 on a run: start-up from the knowledge base alone. *)
Lemma lifespan_installs_configured_retriever_witness :
  ∃ wf s',
    Main.lifespan demo_settings (memory_platform demo_files ∅) (start 0%nat)
    = (Returned wf, s')
    ∧ search_k (Main.chain_retriever (Main.rag_chain wf)) = 3%Z
    ∧ search_fetch_k (Main.chain_retriever (Main.rag_chain wf)) = 6%Z
    ∧ retriever_vectorstore (Main.chain_retriever (Main.rag_chain wf))
      = [chunk "SmartWatch Pro X" 0; chunk "Wireless Earbuds Elite" 1].
Proof.
  eexists _, _. split; [reflexivity|].
  pose proof (lifespan_installs_configured_retriever demo_settings
                (memory_platform demo_files ∅) (start 0%nat) _ _ eq_refl) as Hwf.
  cbv zeta in Hwf. destruct Hwf as (_ & _ & _ & Hk & Hfetch & _).
  split; [exact Hk|]. split; [exact Hfetch|]. reflexivity.
Defined.
